(** * Cloud-SaC-Pipeline: severity classification and the security gate

    A shallow embedding of the decision logic of the three scripts
    [scripts/scan.py], [scripts/security-gate.py] and
    [scripts/generate-pr-comment.py]: the checkov severity classifiers, the
    tfsec and checkov finding normalizers, the gate's [evaluate], and the
    renderer's [truncate_text] and path stripping.

    Python values are modelled as they come out of [json.load]; a function
    that can raise returns a [result]; [evaluate], which prints, returns the
    printed lines next to its result. *)

From Stdlib Require Import ZArith NArith List String Ascii Bool Lia.
From Stdlib Require Import Sorted Permutation.
From Stdlib Require Import DecimalString.
From Stdlib Require Import Floats.PrimFloat.
Import ListNotations.

Local Open Scope Z_scope.

(** ** Python strings *)

(** A [str] is a sequence of Unicode code points. *)
Definition char := N.
Definition str := list char.

(** An ASCII literal of the source, as a [str]. *)
Definition lit (s : string) : str := map N_of_ascii (list_ascii_of_string s).

Definition char_eqb (a b : char) : bool := N.eqb a b.

Fixpoint str_eqb (a b : str) : bool :=
  match a, b with
  | [], [] => true
  | x :: a', y :: b' => char_eqb x y && str_eqb a' b'
  | _, _ => false
  end.

(** [len(s)] as a Python int. *)
Definition len {A} (s : list A) : Z := Z.of_nat (List.length s).

Fixpoint startswith (p s : str) : bool :=
  match p, s with
  | [], _ => true
  | _ :: _, [] => false
  | a :: p', b :: s' => char_eqb a b && startswith p' s'
  end.

(** [p in s] for two strings: [p] occurs in [s] as a contiguous run. *)
Fixpoint str_in (p s : str) : bool :=
  startswith p s ||
  match s with
  | [] => false
  | _ :: s' => str_in p s'
  end.

(** [s[:k]], with Python's reading of a negative bound. *)
Definition slice_to {A} (s : list A) (k : Z) : list A :=
  if k <? 0 then firstn (Z.to_nat (len s + k)) s else firstn (Z.to_nat k) s.

(** [s.lstrip(chars)]: drop the leading characters that occur in [chars]. *)
Fixpoint lstrip (chars s : str) : str :=
  match s with
  | [] => []
  | c :: s' => if existsb (char_eqb c) chars then lstrip chars s' else s
  end.

(** [str(n)] for an int, as f-strings format it. *)
Definition str_of_int (n : Z) : str := lit (NilZero.string_of_int (Z.to_int n)).

(** [s * n] for a string and an int. *)
Definition str_mul (s : str) (n : Z) : str := List.concat (repeat s (Z.to_nat n)).

(** [s.upper()]. Code points below 128 are mapped here; the upper-case
    expansion of the others is Unicode's table, taken as the argument
    [unicode_upper] (one code point may expand to several). *)
Definition upper_char (unicode_upper : char -> str) (c : char) : str :=
  if (c <? 128)%N
  then (if (97 <=? c)%N && (c <=? 122)%N then [(c - 32)%N] else [c])
  else unicode_upper c.

Definition upper (unicode_upper : char -> str) (s : str) : str :=
  flat_map (upper_char unicode_upper) s.

(** ** Values and exceptions *)

(** What [json.load] returns. A dict keeps its items in order, under
    distinct keys. *)
#[warning="-register-all"]
Inductive json : Type :=
| JNull
| JBool (b : bool)
| JInt (n : Z)
| JFloat (f : float)
| JStr (s : str)
| JList (l : list json)
| JDict (d : list (str * json)).

Inductive exn : Type :=
| AttributeError
| TypeError
| KeyError
| OSError
| JSONDecodeError.

Inductive result (A : Type) : Type :=
| Ok (a : A)
| Raise (e : exn).
Arguments Ok {A} a.
Arguments Raise {A} e.

Definition rbind {A B} (m : result A) (k : A -> result B) : result B :=
  match m with
  | Ok a => k a
  | Raise e => Raise e
  end.

Declare Scope result_scope.
Delimit Scope result_scope with result.
Notation "x <- m ;; k" := (rbind m (fun x => k))
  (at level 61, m at next level, right associativity) : result_scope.

(** [bool(v)]. *)
Definition truthy (v : json) : bool :=
  match v with
  | JNull => false
  | JBool b => b
  | JInt n => negb (n =? 0)
  | JFloat f => negb (PrimFloat.eqb f PrimFloat.zero)
  | JStr s => negb (str_eqb s [])
  | JList l => match l with [] => false | _ => true end
  | JDict d => match d with [] => false | _ => true end
  end.

Fixpoint lookup {V} (k : str) (d : list (str * V)) : option V :=
  match d with
  | [] => None
  | (k', v) :: d' => if str_eqb k k' then Some v else lookup k d'
  end.

(** [v.get(k, default)]; only a dict has a [get]. *)
Definition dict_get (k : str) (default : json) (v : json) : result json :=
  match v with
  | JDict d => Ok match lookup k d with Some x => x | None => default end
  | _ => Raise AttributeError
  end.

(** [d[k] = x] on a dict's items. *)
Fixpoint dict_set {V} (k : str) (x : V) (d : list (str * V)) : list (str * V) :=
  match d with
  | [] => [(k, x)]
  | (k', v) :: d' => if str_eqb k k' then (k, x) :: d' else (k', v) :: dict_set k x d'
  end.

(** [p in v] for a string [p]: a substring of a string, an element of a
    list, a key of a dict; the other values are not containers. *)
Definition py_in (p : str) (v : json) : result bool :=
  match v with
  | JStr s => Ok (str_in p s)
  | JList l =>
      Ok (existsb (fun x => match x with JStr s => str_eqb p s | _ => false end) l)
  | JDict d => Ok (existsb (fun kv => str_eqb p (fst kv)) d)
  | _ => Raise TypeError
  end.

(** [any(p in v for p in pats)]: stops at the first pattern that is found. *)
Fixpoint any_in (pats : list str) (v : json) : result bool :=
  match pats with
  | [] => Ok false
  | p :: pats' =>
      (b <- py_in p v ;;
       if b then Ok true else any_in pats' v)%result
  end.

(** The elements a [for] loop over [v] visits. *)
Definition iterate (v : json) : result (list json) :=
  match v with
  | JList l => Ok l
  | JStr s => Ok (map (fun c => JStr [c]) s)
  | JDict d => Ok (map (fun kv => JStr (fst kv)) d)
  | _ => Raise TypeError
  end.

(** A loop body run over a list, left to right, until it raises. *)
Fixpoint for_each {S A} (body : S -> A -> result S) (l : list A) (s : S) : result S :=
  match l with
  | [] => Ok s
  | a :: l' => (s' <- body s a ;; for_each body l' s')%result
  end.

(** ** Printing

    A computation that prints: the arguments of its [print] calls, in order,
    and its result. What was printed before an exception stays printed. *)

Definition io (A : Type) : Type := (list str * result A)%type.

Definition io_ret {A} (a : A) : io A := ([], Ok a).

Definition io_bind {A B} (m : io A) (k : A -> io B) : io B :=
  match m with
  | (out, Ok a) => let (out', r) := k a in (out ++ out', r)
  | (out, Raise e) => (out, Raise e)
  end.

Definition print (line : str) : io unit := ([line], Ok tt).

Definition lift {A} (r : result A) : io A := ([], r).

Declare Scope io_scope.
Delimit Scope io_scope with io.
Notation "x <- m ;; k" := (io_bind m (fun x => k))
  (at level 61, m at next level, right associativity) : io_scope.
Notation "m ;; k" := (io_bind m (fun _ => k))
  (at level 61, right associativity) : io_scope.

(** The results file as the script finds it: missing, failing to open or
    to parse with [e], or holding a JSON document. *)
Inductive file_state : Type :=
| Absent
| Unreadable (e : exn)
| Contents (v : json).

(** [str(d / name)] for a POSIX [Path] printed as [d] and a relative
    [name]. *)
Definition path_join (d name : str) : str :=
  if str_eqb d (lit ".") then name
  else if char_eqb (last d 0%N) 47%N then d ++ name
  else d ++ lit "/" ++ name.

(** ** The severity names *)

Definition CRITICAL : str := lit "CRITICAL".
Definition HIGH : str := lit "HIGH".
Definition MEDIUM : str := lit "MEDIUM".
Definition LOW : str := lit "LOW".
Definition UNKNOWN : str := lit "UNKNOWN".

(** ** scripts/security-gate.py *)

Module Gate.

Record SecurityGate : Type := {
  results_dir : str;
  max_critical : Z;
  max_high : Z
}.

(** [SecurityGate.load_checkov_results]. *)
Definition load_checkov_results (self : SecurityGate) (file : file_state) : io json :=
  let checkov_file := path_join (results_dir self) (lit "results_json.json") in
  match file with
  | Absent =>
      (print ([10060%N] ++ lit " Checkov results not found: " ++ checkov_file) ;;
       io_ret (JDict []))%io
  | Unreadable e => lift (Raise e)
  | Contents v => io_ret v
  end.

(** [SecurityGate.categorize_severity]. *)
Definition categorize_severity (check_id : json) : result str :=
  (c <- any_in [lit "CKV_GCP_62"; lit "CKV_GCP_6"; lit "CKV_GCP_14"] check_id ;;
   if c then Ok CRITICAL else
   g <- py_in (lit "CKV_GCP") check_id ;;
   h <- (if g then Ok true else py_in (lit "CKV_AWS") check_id) ;;
   if h then Ok HIGH else
   m <- py_in (lit "CKV2") check_id ;;
   if m then Ok MEDIUM else Ok LOW)%result.

(** The dict [severity_counts] as [evaluate] creates it. *)
Definition initial_counts : list (str * Z) :=
  [(CRITICAL, 0); (HIGH, 0); (MEDIUM, 0); (LOW, 0)].

(** [counts[k]]. *)
Definition getitem (k : str) (counts : list (str * Z)) : result Z :=
  match lookup k counts with
  | Some n => Ok n
  | None => Raise KeyError
  end.

(** [counts[k] += 1]. *)
Definition increment (k : str) (counts : list (str * Z)) : result (list (str * Z)) :=
  (n <- getitem k counts ;; Ok (dict_set k (n + 1) counts))%result.

(** The counting loop of [evaluate] over [failed_checks]. *)
Definition count_severities (failed_checks : json) : result (list (str * Z)) :=
  (checks <- iterate failed_checks ;;
   for_each
     (fun severity_counts check =>
        check_id <- dict_get (lit "check_id") (JStr []) check ;;
        severity <- categorize_severity check_id ;;
        increment severity severity_counts)
     checks initial_counts)%result.

(** The warning [evaluate] prints when it has no data. *)
Definition no_results_message : str :=
  [9888%N; 65039%N] ++ lit "  No scan results found - failing by default".

(** The two reasons [evaluate] can append. *)
Definition critical_reason (count max : Z) : str :=
  lit "Critical issues: " ++ str_of_int count ++ lit " " ++
  lit "(max allowed: " ++ str_of_int max ++ lit ")".

Definition high_reason (count max : Z) : str :=
  lit "High severity issues: " ++ str_of_int count ++ lit " " ++
  lit "(max allowed: " ++ str_of_int max ++ lit ")".

(** The threshold checks of [evaluate]: [passed] and [reasons] after the
    two [if] statements. *)
Definition check_thresholds (self : SecurityGate) (critical high : Z)
  : bool * list str :=
  let '(passed, reasons) := (true, @nil str) in
  let '(passed, reasons) :=
    if critical >? max_critical self
    then (false, reasons ++ [critical_reason critical (max_critical self)])
    else (passed, reasons) in
  let '(passed, reasons) :=
    if high >? max_high self
    then (false, reasons ++ [high_reason high (max_high self)])
    else (passed, reasons) in
  (passed, reasons).

Fixpoint print_all (lines : list str) : io unit :=
  match lines with
  | [] => io_ret tt
  | l :: lines' => (print l ;; print_all lines')%io
  end.

(** The rest of [evaluate] once [severity_counts] is tallied: the summary,
    the threshold checks and the verdict. Each count is read from the dict
    where the source first prints it; the threshold checks use the values
    read there, where the source reads the unchanged dict again. *)
Definition report (self : SecurityGate) (severity_counts : list (str * Z)) : io bool :=
  (print ([10%N] ++ lit "Findings Summary:") ;;
   critical <- lift (getitem CRITICAL severity_counts) ;;
   print (lit "  " ++ [128308%N] ++ lit " Critical: " ++ str_of_int critical) ;;
   high <- lift (getitem HIGH severity_counts) ;;
   print (lit "  " ++ [128992%N] ++ lit " High:     " ++ str_of_int high) ;;
   medium <- lift (getitem MEDIUM severity_counts) ;;
   print (lit "  " ++ [128993%N] ++ lit " Medium:   " ++ str_of_int medium) ;;
   low <- lift (getitem LOW severity_counts) ;;
   print (lit "  " ++ [9898%N] ++ lit " Low:      " ++ str_of_int low) ;;
   print ([10%N] ++ lit "Security Gate Policy:") ;;
   print (lit "  Maximum Critical: " ++ str_of_int (max_critical self)) ;;
   print (lit "  Maximum High:     " ++ str_of_int (max_high self)) ;;
   let '(passed, reasons) := check_thresholds self critical high in
   print ([10%N] ++ str_mul (lit "=") 60) ;;
   if passed then
     print ([9989%N] ++ lit " Security Gate: PASSED") ;;
     print (str_mul (lit "=") 60) ;;
     print ([10%N] ++ lit "The code meets security requirements.") ;;
     io_ret true
   else
     print ([10060%N] ++ lit " Security Gate: FAILED") ;;
     print (str_mul (lit "=") 60) ;;
     print ([10%N] ++ lit "Reasons for failure:") ;;
     print_all (map (fun reason => lit "  - " ++ reason) reasons) ;;
     print ([10%N] ++ lit "Please fix the security issues before merging.") ;;
     io_ret false)%io.

(** [SecurityGate.evaluate]. *)
Definition evaluate (self : SecurityGate) (file : file_state) : io bool :=
  (print (str_mul (lit "=") 60) ;;
   print (lit "Security Gate Evaluation") ;;
   print (str_mul (lit "=") 60) ;;
   checkov_data <- load_checkov_results self file ;;
   if negb (truthy checkov_data) then
     print no_results_message ;;
     io_ret false
   else
     results <- lift (dict_get (lit "results") (JDict []) checkov_data) ;;
     failed_checks <- lift (dict_get (lit "failed_checks") (JList []) results) ;;
     severity_counts <- lift (count_severities failed_checks) ;;
     report self severity_counts)%io.

(** [main], from the parsed arguments on: the process's exit status. An
    exception that [evaluate] lets through ends the interpreter with
    status 1. *)
Definition main (args : SecurityGate) (file : file_state) : list str * Z :=
  let (out, r) := evaluate args file in
  (out, match r with
        | Ok passed => if passed then 0 else 1
        | Raise _ => 1
        end).

End Gate.

(** ** scripts/scan.py *)

Module Scan.

Definition critical_patterns : list str :=
  [lit "CKV_GCP_6"; lit "CKV_GCP_62"; lit "CKV_GCP_14"].
Definition high_patterns : list str := [lit "CKV_GCP_"; lit "CKV_AWS_"].

(** [SecurityScanner._map_checkov_severity]. *)
Definition _map_checkov_severity (check_id : json) : result str :=
  (c <- any_in critical_patterns check_id ;;
   if c then Ok CRITICAL else
   h <- any_in high_patterns check_id ;;
   if h then Ok HIGH else Ok MEDIUM)%result.

(** The finding [run_checkov] builds from one entry [check_type] of
    [failed_checks] (the dict literal it appends). *)
Definition checkov_finding (check_type : json) : result json :=
  (check_id <- dict_get (lit "check_id") JNull check_type ;;
   check_name <- dict_get (lit "check_name") JNull check_type ;;
   file <- dict_get (lit "file_path") JNull check_type ;;
   resource <- dict_get (lit "resource") JNull check_type ;;
   arg <- dict_get (lit "check_id") JNull check_type ;;
   severity <- _map_checkov_severity arg ;;
   guideline <- dict_get (lit "guideline") (JStr []) check_type ;;
   Ok (JDict [(lit "check_id", check_id);
              (lit "check_name", check_name);
              (lit "file", file);
              (lit "resource", resource);
              (lit "severity", JStr severity);
              (lit "guideline", guideline)]))%result.

(** [v.upper()]; only a string has an [upper]. *)
Definition json_upper (unicode_upper : char -> str) (v : json) : result str :=
  match v with
  | JStr s => Ok (upper unicode_upper s)
  | _ => Raise AttributeError
  end.

(** [finding.get("severity", "UNKNOWN").upper()]. *)
Definition tfsec_severity (unicode_upper : char -> str) (finding : json) : result str :=
  (raw <- dict_get (lit "severity") (JStr UNKNOWN) finding ;;
   json_upper unicode_upper raw)%result.

(** The finding [run_tfsec] builds from one entry [finding] of the tool's
    [results] (the dict literal it appends). *)
Definition tfsec_finding (unicode_upper : char -> str) (finding : json) : result json :=
  (rule_id <- dict_get (lit "rule_id") JNull finding ;;
   description <- dict_get (lit "description") JNull finding ;;
   severity <- tfsec_severity unicode_upper finding ;;
   location <- dict_get (lit "location") (JDict []) finding ;;
   file <- dict_get (lit "filename") JNull location ;;
   location' <- dict_get (lit "location") (JDict []) finding ;;
   line <- dict_get (lit "start_line") JNull location' ;;
   Ok (JDict [(lit "rule_id", rule_id);
              (lit "description", description);
              (lit "severity", JStr severity);
              (lit "file", file);
              (lit "line", line)]))%result.

(** The loop of [run_checkov] that appends to [result["findings"]]: the
    findings appended so far stay when an entry raises. *)
Fixpoint append_findings (checks findings : list json) : list json * option exn :=
  match checks with
  | [] => (findings, None)
  | check_type :: checks' =>
      match checkov_finding check_type with
      | Ok f => append_findings checks' (findings ++ [f])
      | Raise e => (findings, Some e)
      end
  end.

(** [sum(1 for f in findings if f["severity"] == sev)] over findings built
    by [checkov_finding]. *)
Definition count_severity (sev : str) (findings : list json) : Z :=
  len (filter (fun f =>
                 match f with
                 | JDict d => match lookup (lit "severity") d with
                              | Some (JStr s) => str_eqb s sev
                              | _ => false
                              end
                 | _ => false
                 end) findings).

(** The dict [run_checkov] stores as [result["summary"]]. *)
Definition read_summary (checkov_output : json) : result (list (str * json)) :=
  (summary <- dict_get (lit "summary") (JDict []) checkov_output ;;
   n_passed <- dict_get (lit "passed") (JInt 0) summary ;;
   n_failed <- dict_get (lit "failed") (JInt 0) summary ;;
   n_skipped <- dict_get (lit "skipped") (JInt 0) summary ;;
   n_errors <- dict_get (lit "parsing_errors") (JInt 0) summary ;;
   Ok [(lit "passed", n_passed);
       (lit "failed", n_failed);
       (lit "skipped", n_skipped);
       (lit "parsing_errors", n_errors)])%result.

(** The dict [result] of [run_checkov], without its timestamp; [error] is
    the exception the [except] clause caught, if any. *)
Record checkov_result : Type := {
  passed : bool;
  summary : list (str * json);
  findings : list json;
  error : option exn
}.

(** [run_checkov] from the point where the checkov process has returned:
    [output_file] is the file it was asked to write. Every exception of the
    [try] block lands in [error], and [passed] then keeps its initial
    [False]. The terminal output is left out. *)
Definition run_checkov (output_file : file_state) : checkov_result :=
  match output_file with
  | Absent =>
      {| passed := false; summary := []; findings := []; error := None |}
  | Unreadable e =>
      {| passed := false; summary := []; findings := []; error := Some e |}
  | Contents checkov_output =>
      match read_summary checkov_output with
      | Raise e =>
          {| passed := false; summary := []; findings := []; error := Some e |}
      | Ok summary =>
          match (results <- dict_get (lit "results") (JDict []) checkov_output ;;
                 failed <- dict_get (lit "failed_checks") (JList []) results ;;
                 iterate failed)%result with
          | Raise e =>
              {| passed := false; summary := summary; findings := [];
                 error := Some e |}
          | Ok checks =>
              match append_findings checks [] with
              | (findings, Some e) =>
                  {| passed := false; summary := summary; findings := findings;
                     error := Some e |}
              | (findings, None) =>
                  let critical_count := count_severity CRITICAL findings in
                  let high_count := count_severity HIGH findings in
                  {| passed := (critical_count =? 0) && (high_count <=? 5);
                     summary := summary; findings := findings; error := None |}
              end
          end
      end
  end.

(** [run_checkov] from its start: [process] is what running checkov gave,
    the exception [subprocess.run] raised or the state of the output file
    afterwards. *)
Definition run_checkov_process (process : result file_state) : checkov_result :=
  match process with
  | Raise e =>
      {| passed := false; summary := []; findings := []; error := Some e |}
  | Ok output_file => run_checkov output_file
  end.

(** [run_terraform_validate], its verdict [result["passed"]]: [init] is the
    exception [terraform init] raised, if any; [validate] is the parsed
    standard output of [terraform validate -json], or the exception raised
    by running it or by [json.loads]. Whatever raises after [passed] is
    decided leaves it [False]. The error list and the terminal output are
    left out. *)
Definition run_terraform_validate (init : option exn) (validate : result json) : bool :=
  match init with
  | Some _ => false
  | None =>
      match (output <- validate ;;
             dict_get (lit "valid") (JBool false) output)%result with
      | Ok valid => truthy valid
      | Raise _ => false
      end
  end.

(** What running tfsec gave [run_tfsec]: the version probe failed (not
    installed), the scan or [json.loads] raised [e], the scan printed
    nothing, or it printed a JSON document. *)
Inductive tfsec_process : Type :=
| NotInstalled
| Failed (e : exn)
| NoOutput
| Output (v : json).

(** The dict [result] of [run_tfsec], without its timestamp; [t_skipped]
    says whether the key ["skipped"] was set. *)
Record tfsec_result : Type := {
  t_passed : bool;
  t_findings : list json;
  t_skipped : bool;
  t_error : option exn
}.

(** The loop of [run_tfsec] that appends to [result["findings"]]. *)
Fixpoint append_tfsec (unicode_upper : char -> str) (raw findings : list json)
  : list json * option exn :=
  match raw with
  | [] => (findings, None)
  | finding :: raw' =>
      match tfsec_finding unicode_upper finding with
      | Ok f => append_tfsec unicode_upper raw' (findings ++ [f])
      | Raise e => (findings, Some e)
      end
  end.

(** [run_tfsec]: the boolean it returns and its [result]. The terminal
    output is left out. *)
Definition run_tfsec (unicode_upper : char -> str) (process : tfsec_process)
  : bool * tfsec_result :=
  match process with
  | NotInstalled =>
      (true, {| t_passed := false; t_findings := []; t_skipped := true;
                t_error := None |})
  | Failed e =>
      (false, {| t_passed := false; t_findings := []; t_skipped := false;
                 t_error := Some e |})
  | NoOutput =>
      (false, {| t_passed := false; t_findings := []; t_skipped := false;
                 t_error := None |})
  | Output tfsec_output =>
      match (results <- dict_get (lit "results") (JList []) tfsec_output ;;
             iterate results)%result with
      | Raise e =>
          (false, {| t_passed := false; t_findings := []; t_skipped := false;
                     t_error := Some e |})
      | Ok raw =>
          match append_tfsec unicode_upper raw [] with
          | (findings, Some e) =>
              (false, {| t_passed := false; t_findings := findings;
                         t_skipped := false; t_error := Some e |})
          | (findings, None) =>
              let critical_count := count_severity CRITICAL findings in
              let high_count := count_severity HIGH findings in
              let passed := (critical_count =? 0) && (high_count <=? 5) in
              (passed, {| t_passed := passed; t_findings := findings;
                          t_skipped := false; t_error := None |})
          end
      end
  end.

(** What one run of the scanner meets outside: whether creating the output
    directory raised, the outcomes of the four tool invocations, and whether
    writing the summary file raised. *)
Record environment : Type := {
  make_output_dir : option exn;
  terraform_init : option exn;
  terraform_validate : result json;
  checkov : result file_state;
  tfsec : tfsec_process;
  write_summary : option exn
}.



(** [run_all_scans]: the boolean it returns, or the exception from writing
    the summary file. *)
Definition run_all_scans (unicode_upper : char -> str) (env : environment)
  : result bool :=
  let tf_passed := run_terraform_validate (terraform_init env) (terraform_validate env) in
  let checkov_passed := passed (run_checkov_process (checkov env)) in
  let tfsec_passed := fst (run_tfsec unicode_upper (tfsec env)) in
  match write_summary env with
  | Some e => Raise e
  | None => Ok (tf_passed && checkov_passed && tfsec_passed)
  end.

(** [main] from the parsed arguments on: the exit status. A scan path that
    does not exist ends the run with status 1 before any tool runs; an
    exception that nothing catches ends the interpreter with status 1. *)
Definition main (unicode_upper : char -> str) (path_exists : bool) (env : environment) : Z :=
  if negb path_exists then 1
  else
    match make_output_dir env with
    | Some _ => 1
    | None =>
        match run_all_scans unicode_upper env with
        | Ok success => if success then 0 else 1
        | Raise _ => 1
        end
    end.

End Scan.

(** ** scripts/generate-pr-comment.py *)

Module Comment.

(** The classification inside the loop of [categorize_by_severity]
    (the [if]/[elif] chain on [check_id]). *)
Definition classify (check_id : json) : result str :=
  (c <- any_in [lit "CKV_GCP_62"; lit "CKV_GCP_6"; lit "CKV_GCP_14"] check_id ;;
   if c then Ok CRITICAL else
   g <- py_in (lit "CKV_GCP") check_id ;;
   h <- (if g then Ok true else py_in (lit "CKV_AWS") check_id) ;;
   if h then Ok HIGH else
   m <- py_in (lit "CKV2") check_id ;;
   if m then Ok MEDIUM else Ok LOW)%result.

Definition initial_map : list (str * list json) :=
  [(CRITICAL, []); (HIGH, []); (MEDIUM, []); (LOW, [])].

(** [finding[k] = x]; the loop only reaches it with a dict. *)
Definition setitem (k : str) (x : json) (finding : json) : result json :=
  match finding with
  | JDict d => Ok (JDict (dict_set k x d))
  | _ => Raise TypeError
  end.

(** [severity_map[k].append(x)]. *)
Definition append_to (k : str) (x : json) (severity_map : list (str * list json))
  : result (list (str * list json)) :=
  match lookup k severity_map with
  | Some l => Ok (dict_set k (l ++ [x]) severity_map)
  | None => Raise KeyError
  end.

(** [categorize_by_severity]: each finding, with its [severity] set, goes
    to the list of its severity. *)
Definition categorize_by_severity (findings : json) : result (list (str * list json)) :=
  (fs <- iterate findings ;;
   for_each
     (fun severity_map finding =>
        check_id <- dict_get (lit "check_id") (JStr []) finding ;;
        severity <- classify check_id ;;
        finding' <- setitem (lit "severity") (JStr severity) finding ;;
        append_to severity finding' severity_map)
     fs initial_map)%result.

(** [truncate_text]. *)
Definition truncate_text (text : str) (max_length : Z) : str :=
  if len text <=? max_length then text
  else slice_to text (max_length - 3) ++ lit "...".

(** [s.lstrip('/')], as [generate_pr_comment] applies it to a file path. *)
Definition strip_path (file_path : str) : str := lstrip (lit "/") file_path.

(** [finding.get('file_path', '').lstrip('/')]. *)
Definition file_path_of (finding : json) : result str :=
  (p <- dict_get (lit "file_path") (JStr []) finding ;;
   match p with
   | JStr s => Ok (strip_path s)
   | _ => Raise AttributeError
   end)%result.

(** [load_checkov_results] of this script: no message when the file is
    missing. *)
Definition load_checkov_results (file : file_state) : result json :=
  match file with
  | Absent => Ok (JDict [])
  | Unreadable e => Raise e
  | Contents v => Ok v
  end.

(** The overall status [generate_pr_comment] derives from the two counts:
    [status_emoji] and [status_text]. *)
Definition overall_status (critical_count high_count : Z) : str * str :=
  if critical_count >? 0 then
    ([128308%N], lit "FAILED - Critical issues found")
  else if high_count >? 5 then
    ([128992%N], lit "WARNING - Multiple high severity issues")
  else if high_count >? 0 then
    ([128993%N], lit "ATTENTION - High severity issues found")
  else
    ([128994%N], lit "PASSED - No critical/high issues").

(** [len(severity_findings[k])]. *)
Definition bucket_size (k : str) (severity_map : list (str * list json)) : result Z :=
  match lookup k severity_map with
  | Some l => Ok (len l)
  | None => Raise KeyError
  end.

(** What [generate_pr_comment] returns when it has no data. *)
Definition could_not_load : str :=
  [9888%N; 65039%N] ++ lit " Could not load security scan results".

(** [generate_pr_comment] up to the status line of the comment: the text it
    returns when it has no data, or else the line
    ["**Status:** <emoji> <text>"]. The rest of the comment is left out. *)
Definition status_line (file : file_state) : result str :=
  (checkov_data <- load_checkov_results file ;;
   if negb (truthy checkov_data) then Ok could_not_load else
   summary <- dict_get (lit "summary") (JDict []) checkov_data ;;
   results <- dict_get (lit "results") (JDict []) checkov_data ;;
   failed_checks <- dict_get (lit "failed_checks") (JList []) results ;;
   results' <- dict_get (lit "results") (JDict []) checkov_data ;;
   passed_checks <- dict_get (lit "passed_checks") (JList []) results' ;;
   severity_findings <- categorize_by_severity failed_checks ;;
   critical_count <- bucket_size CRITICAL severity_findings ;;
   high_count <- bucket_size HIGH severity_findings ;;
   medium_count <- bucket_size MEDIUM severity_findings ;;
   low_count <- bucket_size LOW severity_findings ;;
   total_failed <- dict_get (lit "failed") (JInt 0) summary ;;
   total_passed <- dict_get (lit "passed") (JInt 0) summary ;;
   let '(status_emoji, status_text) := overall_status critical_count high_count in
   Ok (lit "**Status:** " ++ status_emoji ++ lit " " ++ status_text))%result.

(** [file_counts[k] += 1] on a [defaultdict(int)]: a new key enters at the
    end with 1. *)
Definition bump (k : str) (file_counts : list (str * Z)) : list (str * Z) :=
  dict_set k (match lookup k file_counts with Some n => n | None => 0 end + 1)
           file_counts.

(** The loop of [generate_pr_comment] that fills [file_counts]. *)
Definition count_files (failed_checks : json) : result (list (str * Z)) :=
  (checks <- iterate failed_checks ;;
   for_each
     (fun file_counts finding =>
        file_path <- file_path_of finding ;;
        Ok (if negb (str_eqb file_path []) then bump file_path file_counts
            else file_counts))
     checks [])%result.

(** [sorted(items, key=lambda x: x[1], reverse=True)]: by decreasing count;
    the sort is stable, so items of equal count keep their order. *)
Fixpoint insert_item (x : str * Z) (sorted : list (str * Z)) : list (str * Z) :=
  match sorted with
  | [] => [x]
  | y :: rest =>
      if snd y <? snd x then x :: y :: rest
      else y :: insert_item x rest
  end.

Definition sort_items (items : list (str * Z)) : list (str * Z) :=
  fold_left (fun sorted x => insert_item x sorted) items [].

(** The rows of the table of most affected files: [sorted_files]. *)
Definition sorted_files (file_counts : list (str * Z)) : list (str * Z) :=
  firstn 5 (sort_items file_counts).

End Comment.

(** ** Vocabulary of the statements *)

(** [p] occurs in [s]: some text, then [p], then some text. *)
Definition occurs_in (p s : str) : Prop := exists l r, s = l ++ p ++ r.

(** The patterns of the critical tier, as a set. *)
Definition critical_set : list str :=
  [lit "CKV_GCP_62"; lit "CKV_GCP_6"; lit "CKV_GCP_14"].

(** The keys of the gate's [severity_counts]. *)
Definition severity_names : list str := [CRITICAL; HIGH; MEDIUM; LOW].

(** Two failed-check records give [evaluate] the same [check_id]. *)
Definition same_check_id (a b : json) : Prop :=
  dict_get (lit "check_id") (JStr []) a = dict_get (lit "check_id") (JStr []) b.

(** The severity [evaluate] gives one failed-check record. *)
Definition severity_of (check : json) : result str :=
  (check_id <- dict_get (lit "check_id") (JStr []) check ;;
   Gate.categorize_severity check_id)%result.

(** How many of [checks] have severity [sev]. *)
Definition tally (sev : str) (checks : list json) : Z :=
  len (filter (fun check =>
                 match severity_of check with
                 | Ok s => str_eqb s sev
                 | Raise _ => false
                 end) checks).

(** Sample inputs: a gate with the command line's default thresholds, a
    failed-check record, and a checkov document around a list of them. *)
Definition default_gate : Gate.SecurityGate :=
  {| Gate.results_dir := lit "scan-results";
     Gate.max_critical := 0;
     Gate.max_high := 5 |}.

Definition record (check_id check_name file_path : string) : json :=
  JDict [(lit "check_id", JStr (lit check_id));
         (lit "check_name", JStr (lit check_name));
         (lit "file_path", JStr (lit file_path))].

Definition document (checks : list json) : json :=
  JDict [(lit "check_type", JStr (lit "terraform"));
         (lit "results", JDict [(lit "passed_checks", JList []);
                                (lit "failed_checks", JList checks)])].

(** A failed-check record the gate can classify: a dict whose [check_id]
    is missing or a string. *)
Definition plain_record (check : json) : Prop :=
  exists d, check = JDict d /\
            (lookup (lit "check_id") d = None \/
             exists s, lookup (lit "check_id") d = Some (JStr s)).

(** The lines [evaluate] prints before it loads the file. *)
Definition header_lines : list str :=
  [str_mul (lit "=") 60; lit "Security Gate Evaluation"; str_mul (lit "=") 60].

(** The lines of the gate's summary, for the four counts. *)
Definition summary_lines (self : Gate.SecurityGate) (c h m l : Z) : list str :=
  [[10%N] ++ lit "Findings Summary:";
   lit "  " ++ [128308%N] ++ lit " Critical: " ++ str_of_int c;
   lit "  " ++ [128992%N] ++ lit " High:     " ++ str_of_int h;
   lit "  " ++ [128993%N] ++ lit " Medium:   " ++ str_of_int m;
   lit "  " ++ [9898%N] ++ lit " Low:      " ++ str_of_int l;
   [10%N] ++ lit "Security Gate Policy:";
   lit "  Maximum Critical: " ++ str_of_int (Gate.max_critical self);
   lit "  Maximum High:     " ++ str_of_int (Gate.max_high self)].

(** The lines of the gate's verdict, for [passed] and [reasons]. *)
Definition verdict_lines (verdict : bool * list str) : list str :=
  ([10%N] ++ str_mul (lit "=") 60) ::
  (if fst verdict then
     [[9989%N] ++ lit " Security Gate: PASSED";
      str_mul (lit "=") 60;
      [10%N] ++ lit "The code meets security requirements."]
   else
     [[10060%N] ++ lit " Security Gate: FAILED";
      str_mul (lit "=") 60;
      [10%N] ++ lit "Reasons for failure:"]
     ++ map (fun reason => lit "  - " ++ reason) (snd verdict)
     ++ [[10%N] ++ lit "Please fix the security issues before merging."]).

(** A failed-check record whose [check_id] is a string. *)
Definition string_id_record (check : json) : Prop :=
  exists d s, check = JDict d /\ lookup (lit "check_id") d = Some (JStr s).

(** The shape of a finding that scan.py stores for checkov: six keys in
    this order, and a severity that is one of three names. *)
Definition checkov_finding_shape (f : json) : Prop :=
  exists check_id check_name file resource severity guideline,
    f = JDict [(lit "check_id", check_id);
               (lit "check_name", check_name);
               (lit "file", file);
               (lit "resource", resource);
               (lit "severity", JStr severity);
               (lit "guideline", guideline)] /\
    In severity [CRITICAL; HIGH; MEDIUM].

(** What [categorize_by_severity] files under [sev] for one finding: the
    finding with its [severity] set, when it classifies as [sev]. *)
Definition marked (sev : str) (check : json) : list json :=
  match check with
  | JDict d =>
      match severity_of check with
      | Ok s => if str_eqb s sev
                then [JDict (dict_set (lit "severity") (JStr sev) d)]
                else []
      | Raise _ => []
      end
  | _ => []
  end.

(** The findings of severity [sev], marked, in their order. *)
Definition bucket (sev : str) (checks : list json) : list json :=
  flat_map (marked sev) checks.

(** How many of [checks] have the stripped file path [p]. *)
Definition path_occurrences (p : str) (checks : list json) : Z :=
  len (filter (fun finding =>
                 match Comment.file_path_of finding with
                 | Ok q => str_eqb q p
                 | Raise _ => false
                 end) checks).

(** ** Strings *)

Lemma str_eqb_eq (a b : str) : str_eqb a b = true <-> a = b.
Proof.
  revert b; induction a as [|x a IH]; intros [|y b]; simpl; try (split; congruence).
  unfold char_eqb. rewrite andb_true_iff, N.eqb_eq, IH.
  split; [intros [-> ->]; reflexivity | intros H; injection H; auto].
Qed.

Lemma startswith_spec (p s : str) :
  startswith p s = true <-> exists r, s = p ++ r.
Proof.
  revert s; induction p as [|a p IH]; intros s; simpl.
  - split; [intros _; exists s; reflexivity | reflexivity].
  - destruct s as [|b s].
    + split; [discriminate | intros [r H]; discriminate].
    + unfold char_eqb. rewrite andb_true_iff, N.eqb_eq, IH. split.
      * intros [-> [r ->]]. exists r; reflexivity.
      * intros [r H]. injection H as -> ->. split; [reflexivity | exists r; reflexivity].
Qed.

Lemma str_in_spec (p s : str) : str_in p s = true <-> occurs_in p s.
Proof.
  unfold occurs_in. induction s as [|c s IH]; simpl.
  - rewrite orb_false_r, startswith_spec. split.
    + intros [r H]. exists [], r. exact H.
    + intros [l [r H]]. destruct l; [exists r; exact H | discriminate].
  - rewrite orb_true_iff, startswith_spec, IH. split.
    + intros [[r H] | [l [r H]]].
      * exists [], r. exact H.
      * exists (c :: l), r. simpl. congruence.
    + intros [[|x l] [r H]].
      * left. exists r. exact H.
      * right. injection H as _ H. exists l, r. exact H.
Qed.

Lemma str_in_false (p s : str) : str_in p s = false <-> ~ occurs_in p s.
Proof.
  rewrite <- str_in_spec. destruct (str_in p s); split; congruence.
Qed.

(** A string that contains [p ++ q] contains [p]. *)
Lemma occurs_in_prefix (p q s : str) : occurs_in (p ++ q) s -> occurs_in p s.
Proof.
  intros [l [r ->]]. exists l, (q ++ r). now rewrite <- app_assoc.
Qed.

Lemma any_in_str (pats : list str) (s : str) :
  any_in pats (JStr s) = Ok (existsb (fun p => str_in p s) pats).
Proof.
  induction pats as [|p pats IH]; simpl; [reflexivity|].
  destruct (str_in p s); simpl; [reflexivity | exact IH].
Qed.

Lemma existsb_str_in (pats : list str) (s : str) :
  existsb (fun p => str_in p s) pats = true <->
  exists p, In p pats /\ occurs_in p s.
Proof.
  rewrite existsb_exists. split; intros [p [Hin H]]; exists p; split; auto;
    now apply str_in_spec.
Qed.

Lemma lstrip_fixed (chars s : str) :
  lstrip chars (lstrip chars s) = lstrip chars s.
Proof.
  induction s as [|c s IH]; simpl; [reflexivity|].
  destruct (existsb (char_eqb c) chars) eqn:E; [exact IH|].
  simpl. now rewrite E.
Qed.

(** What [lstrip] returns starts with none of [chars]. *)
Lemma lstrip_head (chars s : str) (c : char) (rest : str) :
  lstrip chars s = c :: rest -> existsb (char_eqb c) chars = false.
Proof.
  induction s as [|x s IH]; simpl; [discriminate|].
  destruct (existsb (char_eqb x) chars) eqn:E; [exact IH|].
  intros [= <- _]. exact E.
Qed.

(** What [lstrip] returns is the end of its argument. *)
Lemma lstrip_suffix (chars s : str) :
  exists dropped, s = dropped ++ lstrip chars s /\
                  forallb (fun c => existsb (char_eqb c) chars) dropped = true.
Proof.
  induction s as [|x s [dropped [IH1 IH2]]]; simpl.
  - exists []. split; reflexivity.
  - destruct (existsb (char_eqb x) chars) eqn:E.
    + exists (x :: dropped). simpl. rewrite E, IH2. split; [congruence | reflexivity].
    + exists []. split; reflexivity.
Qed.

(** ** Path stripping *)

(** C9. Stripping the leading ['/'] characters of a path is idempotent:
    stripping an already stripped path returns it unchanged. *)
Theorem strip_path_idempotent (p : str) :
  Comment.strip_path (Comment.strip_path p) = Comment.strip_path p.
Proof. unfold Comment.strip_path. apply lstrip_fixed. Qed.

(** ** The three classifiers on a string *)

Lemma gate_on_str (s : str) :
  Gate.categorize_severity (JStr s) =
  Ok (if existsb (fun p => str_in p s) critical_set then CRITICAL
      else if str_in (lit "CKV_GCP") s || str_in (lit "CKV_AWS") s then HIGH
      else if str_in (lit "CKV2") s then MEDIUM
      else LOW).
Proof.
  unfold Gate.categorize_severity. rewrite any_in_str. fold critical_set.
  unfold py_in, rbind.
  destruct (existsb _ critical_set); [reflexivity|].
  destruct (str_in (lit "CKV_GCP") s); [reflexivity|].
  destruct (str_in (lit "CKV_AWS") s); [reflexivity|].
  destruct (str_in (lit "CKV2") s); reflexivity.
Qed.

Lemma comment_is_gate (v : json) :
  Comment.classify v = Gate.categorize_severity v.
Proof. reflexivity. Qed.

Lemma scan_on_str (s : str) :
  Scan._map_checkov_severity (JStr s) =
  Ok (if existsb (fun p => str_in p s) Scan.critical_patterns then CRITICAL
      else if str_in (lit "CKV_GCP_") s || str_in (lit "CKV_AWS_") s then HIGH
      else MEDIUM).
Proof.
  unfold Scan._map_checkov_severity. rewrite !any_in_str. unfold rbind.
  destruct (existsb _ Scan.critical_patterns); [reflexivity|].
  unfold Scan.high_patterns, existsb. rewrite orb_false_r.
  destruct (_ || _); reflexivity.
Qed.

(** The two scripts list the critical patterns in different orders. *)
Lemma critical_patterns_same_set (s : str) :
  existsb (fun p => str_in p s) Scan.critical_patterns =
  existsb (fun p => str_in p s) critical_set.
Proof.
  unfold Scan.critical_patterns, critical_set, existsb.
  destruct (str_in (lit "CKV_GCP_6") s), (str_in (lit "CKV_GCP_62") s); reflexivity.
Qed.

(** Every critical pattern starts with ["CKV_GCP_"]. *)
Lemma critical_has_provider_prefix (p s : str) :
  In p critical_set -> occurs_in p s -> occurs_in (lit "CKV_GCP_") s.
Proof.
  intros Hin H. unfold critical_set in Hin. simpl in Hin.
  destruct Hin as [<- | [<- | [<- | []]]].
  - apply (occurs_in_prefix _ (lit "62")). exact H.
  - apply (occurs_in_prefix _ (lit "6")). exact H.
  - apply (occurs_in_prefix _ (lit "14")). exact H.
Qed.

Lemma gcp_underscore_has_gcp (s : str) :
  occurs_in (lit "CKV_GCP_") s -> occurs_in (lit "CKV_GCP") s.
Proof. apply (occurs_in_prefix (lit "CKV_GCP") (lit "_")). Qed.

Lemma aws_underscore_has_aws (s : str) :
  occurs_in (lit "CKV_AWS_") s -> occurs_in (lit "CKV_AWS") s.
Proof. apply (occurs_in_prefix (lit "CKV_AWS") (lit "_")). Qed.

Lemma severities_distinct :
  CRITICAL <> HIGH /\ CRITICAL <> MEDIUM /\ CRITICAL <> LOW /\
  HIGH <> MEDIUM /\ HIGH <> LOW /\ MEDIUM <> LOW.
Proof. repeat split; discriminate. Qed.

(** C3. A check_id that contains a critical pattern is CRITICAL in each
    classifier, although it also contains the provider prefix of the high
    tier (["CKV_GCP"], and ["CKV_GCP_"] in scan.py): the critical tier is
    tested first. *)
Theorem critical_takes_precedence (s : str) :
  (exists p, In p critical_set /\ occurs_in p s) ->
  Gate.categorize_severity (JStr s) = Ok CRITICAL /\
  Scan._map_checkov_severity (JStr s) = Ok CRITICAL /\
  Comment.classify (JStr s) = Ok CRITICAL /\
  occurs_in (lit "CKV_GCP") s /\
  occurs_in (lit "CKV_GCP_") s.
Proof.
  intros H.
  assert (E : existsb (fun p => str_in p s) critical_set = true)
    by now apply existsb_str_in.
  destruct H as [p [Hin Hp]].
  pose proof (critical_has_provider_prefix p s Hin Hp) as Hpre.
  change (Comment.classify (JStr s)) with (Gate.categorize_severity (JStr s)).
  rewrite gate_on_str, scan_on_str, critical_patterns_same_set, E.
  repeat split; auto using gcp_underscore_has_gcp.
Qed.

Lemma critical_takes_precedence_witness :
  Gate.categorize_severity (JStr (lit "CKV_GCP_62")) = Ok CRITICAL /\
  Scan._map_checkov_severity (JStr (lit "CKV_GCP_62")) = Ok CRITICAL /\
  Comment.classify (JStr (lit "CKV_GCP_62")) = Ok CRITICAL /\
  occurs_in (lit "CKV_GCP") (lit "CKV_GCP_62") /\
  occurs_in (lit "CKV_GCP_") (lit "CKV_GCP_62").
Proof.
  apply (critical_takes_precedence (lit "CKV_GCP_62")).
  exists (lit "CKV_GCP_62"). split.
  - simpl. left. reflexivity.
  - exists [], []. reflexivity.
Defined.

(** ** Truncation *)

(** C7. For [n >= 3], [truncate_text s n] is [s] when [len s <= n], and
    otherwise the first [n - 3] characters of [s] followed by ["..."], a
    string of length exactly [n]; the output is never longer than [n], and
    equal inputs give equal outputs. *)
Theorem truncate_text_spec (s : str) (n : Z) :
  3 <= n ->
  (len s <= n -> Comment.truncate_text s n = s) /\
  (n < len s ->
   Comment.truncate_text s n = firstn (Z.to_nat (n - 3)) s ++ lit "..." /\
   len (Comment.truncate_text s n) = n) /\
  len (Comment.truncate_text s n) <= n /\
  (forall s' n', s' = s -> n' = n ->
                 Comment.truncate_text s' n' = Comment.truncate_text s n).
Proof.
  intros Hn.
  assert (Hlong : n < len s ->
                  Comment.truncate_text s n = firstn (Z.to_nat (n - 3)) s ++ lit "..." /\
                  len (Comment.truncate_text s n) = n).
  { intros Hlt. unfold Comment.truncate_text, slice_to.
    destruct (Z.leb_spec (len s) n) as [Hle | _]; [lia|].
    destruct (Z.ltb_spec (n - 3) 0) as [Hneg | _]; [lia|].
    split; [reflexivity|].
    unfold len in *. rewrite length_app, firstn_length_le by lia.
    simpl. lia. }
  repeat split.
  - intros Hle. unfold Comment.truncate_text.
    destruct (Z.leb_spec (len s) n); [reflexivity | lia].
  - apply Hlong; assumption.
  - apply Hlong; assumption.
  - destruct (Z.le_gt_cases (len s) n) as [Hle | Hgt].
    + unfold Comment.truncate_text.
      destruct (Z.leb_spec (len s) n); [assumption | lia].
    + destruct (Hlong Hgt) as [_ ->]. lia.
  - intros s' n' -> ->. reflexivity.
Qed.

Lemma truncate_text_spec_witness :
  3 <= 5 /\
  Comment.truncate_text (lit "abcdefgh") 5 = lit "ab..." /\
  len (Comment.truncate_text (lit "abcdefgh") 5) = 5.
Proof.
  split; [lia|].
  destruct (truncate_text_spec (lit "abcdefgh") 5 ltac:(lia)) as [_ [H _]].
  apply H. reflexivity.
Defined.

(** ** The lower tiers *)

(** C4, as stated, fails in scan.py: ["CKV_K8S_21"] contains no listed
    pattern, and [_map_checkov_severity] returns MEDIUM for it, not LOW. *)
Lemma scan_unmatched_is_medium :
  (forall p, In p critical_set -> ~ occurs_in p (lit "CKV_K8S_21")) /\
  ~ occurs_in (lit "CKV_GCP") (lit "CKV_K8S_21") /\
  ~ occurs_in (lit "CKV_AWS") (lit "CKV_K8S_21") /\
  ~ occurs_in (lit "CKV2") (lit "CKV_K8S_21") /\
  Scan._map_checkov_severity (JStr (lit "CKV_K8S_21")) = Ok MEDIUM /\
  Scan._map_checkov_severity (JStr (lit "CKV_K8S_21")) <> Ok LOW.
Proof.
  repeat split; try (apply str_in_false; reflexivity); try discriminate.
  intros p Hin. apply str_in_false.
  destruct Hin as [<- | [<- | [<- | []]]]; reflexivity.
Qed.

(** C4, amended. For a check_id that contains no critical pattern and
    neither ["CKV_GCP"] nor ["CKV_AWS"]: security-gate.py and
    generate-pr-comment.py return MEDIUM when it contains ["CKV2"] and LOW
    otherwise; scan.py returns MEDIUM in both cases. *)
Theorem lower_tiers (s : str) :
  (forall p, In p critical_set -> ~ occurs_in p s) ->
  ~ occurs_in (lit "CKV_GCP") s ->
  ~ occurs_in (lit "CKV_AWS") s ->
  (occurs_in (lit "CKV2") s ->
   Gate.categorize_severity (JStr s) = Ok MEDIUM /\
   Comment.classify (JStr s) = Ok MEDIUM) /\
  (~ occurs_in (lit "CKV2") s ->
   Gate.categorize_severity (JStr s) = Ok LOW /\
   Comment.classify (JStr s) = Ok LOW) /\
  Scan._map_checkov_severity (JStr s) = Ok MEDIUM.
Proof.
  intros Hc Hg Ha.
  assert (Ec : existsb (fun p => str_in p s) critical_set = false).
  { destruct (existsb _ critical_set) eqn:E; [|reflexivity].
    apply existsb_str_in in E. destruct E as [p [Hin Hp]].
    destruct (Hc p Hin Hp). }
  assert (Eg_ : str_in (lit "CKV_GCP_") s = false).
  { apply str_in_false. intros H. apply Hg. now apply gcp_underscore_has_gcp. }
  assert (Ea_ : str_in (lit "CKV_AWS_") s = false).
  { apply str_in_false. intros H. apply Ha. now apply aws_underscore_has_aws. }
  apply str_in_false in Hg, Ha.
  change (Comment.classify (JStr s)) with (Gate.categorize_severity (JStr s)).
  rewrite gate_on_str, scan_on_str, critical_patterns_same_set, Ec, Hg, Ha, Eg_, Ea_.
  simpl. repeat split.
  - apply str_in_spec in H. now rewrite H.
  - apply str_in_spec in H. now rewrite H.
  - apply str_in_false in H. now rewrite H.
  - apply str_in_false in H. now rewrite H.
Qed.

Lemma lower_tiers_witness :
  Gate.categorize_severity (JStr (lit "CKV2_GCP_12")) = Ok MEDIUM /\
  Comment.classify (JStr (lit "CKV2_GCP_12")) = Ok MEDIUM /\
  Gate.categorize_severity (JStr (lit "CKV_K8S_21")) = Ok LOW /\
  Comment.classify (JStr (lit "CKV_K8S_21")) = Ok LOW /\
  Scan._map_checkov_severity (JStr (lit "CKV_K8S_21")) = Ok MEDIUM.
Proof.
  assert (Hno : forall s,
             str_in (lit "CKV_GCP") s = false ->
             forall p, In p critical_set -> ~ occurs_in p s).
  { intros s E p Hin Hp. apply str_in_false in E. apply E.
    apply gcp_underscore_has_gcp. exact (critical_has_provider_prefix p s Hin Hp). }
  destruct (lower_tiers (lit "CKV2_GCP_12")) as [Hm _].
  { apply Hno. reflexivity. }
  { apply str_in_false. reflexivity. }
  { apply str_in_false. reflexivity. }
  destruct (lower_tiers (lit "CKV_K8S_21")) as [_ [Hl Hs]].
  { apply Hno. reflexivity. }
  { apply str_in_false. reflexivity. }
  { apply str_in_false. reflexivity. }
  destruct Hm as [Hm1 Hm2]. { apply str_in_spec. reflexivity. }
  destruct Hl as [Hl1 Hl2]. { apply str_in_false. reflexivity. }
  repeat split; assumption.
Defined.

(** ** Agreement of the three classifiers *)

(** C5, as stated, fails: on ["CKV_K8S_21"] security-gate.py answers LOW
    and scan.py answers MEDIUM. *)
Lemma scan_differs_from_gate :
  Gate.categorize_severity (JStr (lit "CKV_K8S_21")) = Ok LOW /\
  Comment.classify (JStr (lit "CKV_K8S_21")) = Ok LOW /\
  Scan._map_checkov_severity (JStr (lit "CKV_K8S_21")) = Ok MEDIUM /\
  Scan._map_checkov_severity (JStr (lit "CKV_K8S_21")) <>
  Gate.categorize_severity (JStr (lit "CKV_K8S_21")).
Proof. repeat split; discriminate. Qed.

(** C5, amended. security-gate.py and generate-pr-comment.py classify
    every value alike. On a check_id string, scan.py agrees with them
    exactly when the string contains a critical pattern, or ["CKV_GCP_"] or
    ["CKV_AWS_"], or contains ["CKV2"] and neither ["CKV_GCP"] nor
    ["CKV_AWS"]; where it disagrees, scan.py answers MEDIUM and the other
    two HIGH or LOW. *)
Theorem classifiers_agreement (s : str) :
  (forall v, Comment.classify v = Gate.categorize_severity v) /\
  (Scan._map_checkov_severity (JStr s) = Gate.categorize_severity (JStr s) <->
   (exists p, In p critical_set /\ occurs_in p s) \/
   occurs_in (lit "CKV_GCP_") s \/
   occurs_in (lit "CKV_AWS_") s \/
   (occurs_in (lit "CKV2") s /\
    ~ occurs_in (lit "CKV_GCP") s /\ ~ occurs_in (lit "CKV_AWS") s)) /\
  (Scan._map_checkov_severity (JStr s) <> Gate.categorize_severity (JStr s) ->
   Scan._map_checkov_severity (JStr s) = Ok MEDIUM /\
   (Gate.categorize_severity (JStr s) = Ok HIGH \/
    Gate.categorize_severity (JStr s) = Ok LOW)).
Proof.
  split; [exact comment_is_gate|].
  pose proof (gcp_underscore_has_gcp s) as Hg.
  pose proof (aws_underscore_has_aws s) as Ha.
  rewrite gate_on_str, scan_on_str, critical_patterns_same_set.
  rewrite <- existsb_str_in, <- !str_in_false.
  rewrite <- !str_in_spec in *.
  destruct (existsb (fun p => str_in p s) critical_set);
    destruct (str_in (lit "CKV_GCP_") s);
    destruct (str_in (lit "CKV_AWS_") s);
    destruct (str_in (lit "CKV_GCP") s);
    destruct (str_in (lit "CKV_AWS") s);
    destruct (str_in (lit "CKV2") s);
    simpl;
    try (specialize (Hg eq_refl); discriminate);
    try (specialize (Ha eq_refl); discriminate);
    (split; [split; intros H | intros H]);
    try reflexivity; try discriminate;
    try (exfalso; apply H; reflexivity);
    auto 6;
    try (exfalso; intuition discriminate).
Qed.

(** ** Records with missing fields *)

(** A checkov record whose [check_id] is a string always normalizes in
    scan.py; the fields it lacks become [None], its guideline ['']. *)
Lemma checkov_finding_with_check_id (d : list (str * json)) (s : str) :
  lookup (lit "check_id") d = Some (JStr s) ->
  exists severity,
    Scan._map_checkov_severity (JStr s) = Ok severity /\
    In severity [CRITICAL; HIGH; MEDIUM] /\
    Scan.checkov_finding (JDict d) =
    Ok (JDict [(lit "check_id", JStr s);
               (lit "check_name",
                match lookup (lit "check_name") d with Some x => x | None => JNull end);
               (lit "file",
                match lookup (lit "file_path") d with Some x => x | None => JNull end);
               (lit "resource",
                match lookup (lit "resource") d with Some x => x | None => JNull end);
               (lit "severity", JStr severity);
               (lit "guideline",
                match lookup (lit "guideline") d with Some x => x | None => JStr [] end)]).
Proof.
  intros H. unfold Scan.checkov_finding, dict_get. rewrite H. cbn [rbind].
  rewrite scan_on_str.
  destruct (existsb _ Scan.critical_patterns);
    [|destruct (_ || _)]; eexists; (split; [reflexivity|]);
    (split; [simpl; auto | reflexivity]).
Qed.

(** C6. The normalizer of scan.py raises on a checkov record that has no
    [check_id]: [check_type.get("check_id")] is [None], and
    [_map_checkov_severity] tests a pattern against it. [run_checkov]
    catches the exception and fails the run with no finding for that
    record. security-gate.py reads the field with the default [''] and
    classifies the same record as LOW. *)
Theorem checkov_finding_without_check_id (d : list (str * json)) :
  lookup (lit "check_id") d = None ->
  Scan.checkov_finding (JDict d) = Raise TypeError /\
  Scan.run_checkov
    (Contents (JDict [(lit "results",
                       JDict [(lit "failed_checks", JList [JDict d])])]))
  = {| Scan.passed := false;
       Scan.summary := [(lit "passed", JInt 0); (lit "failed", JInt 0);
                        (lit "skipped", JInt 0); (lit "parsing_errors", JInt 0)];
       Scan.findings := [];
       Scan.error := Some TypeError |} /\
  severity_of (JDict d) = Ok LOW.
Proof.
  intros H.
  assert (E : Scan.checkov_finding (JDict d) = Raise TypeError).
  { unfold Scan.checkov_finding, dict_get. rewrite H. reflexivity. }
  repeat split.
  - exact E.
  - unfold Scan.run_checkov.
    change (Scan.read_summary
              (JDict [(lit "results", JDict [(lit "failed_checks", JList [JDict d])])]))
      with (Ok [(lit "passed", JInt 0); (lit "failed", JInt 0);
                (lit "skipped", JInt 0); (lit "parsing_errors", JInt 0)]).
    change (dict_get (lit "results") (JDict [])
              (JDict [(lit "results", JDict [(lit "failed_checks", JList [JDict d])])]))
      with (Ok (JDict [(lit "failed_checks", JList [JDict d])])).
    unfold rbind.
    change (dict_get (lit "failed_checks") (JList [])
              (JDict [(lit "failed_checks", JList [JDict d])]))
      with (Ok (JList [JDict d])).
    unfold iterate, Scan.append_findings. rewrite E. reflexivity.
  - unfold severity_of, dict_get. rewrite H. reflexivity.
Qed.

Lemma checkov_finding_without_check_id_witness :
  Scan.checkov_finding
    (JDict [(lit "check_name", JStr (lit "Ensure bucket is private"));
            (lit "resource", JStr (lit "google_storage_bucket.logs"))])
  = Raise TypeError.
Proof.
  apply (checkov_finding_without_check_id
           [(lit "check_name", JStr (lit "Ensure bucket is private"));
            (lit "resource", JStr (lit "google_storage_bucket.logs"))]).
  reflexivity.
Defined.

(** ** tfsec severities *)

(** C8, as stated, fails: the severity ["banana"] is none of the four
    names, and the finding's severity is ["BANANA"], not ["UNKNOWN"],
    whatever the Unicode table. *)
Lemma tfsec_banana_is_not_unknown :
  ~ In (lit "banana") [CRITICAL; HIGH; MEDIUM; LOW] /\
  ~ In (lit "BANANA") [CRITICAL; HIGH; MEDIUM; LOW] /\
  (forall unicode_upper,
      Scan.tfsec_severity unicode_upper
        (JDict [(lit "rule_id", JStr (lit "google-storage-enable-ubla"));
                (lit "severity", JStr (lit "banana"))])
      = Ok (lit "BANANA")) /\
  lit "BANANA" <> UNKNOWN.
Proof.
  repeat split; try discriminate; try reflexivity;
    simpl; intros H; decompose [or] H; try discriminate; assumption.
Qed.

(** C8, amended. The severity of a tfsec finding is the upper-cased form
    of the severity string of the record; it is ["UNKNOWN"] when the
    record has no [severity] field; a severity that is not a string
    raises. No string is mapped to ["UNKNOWN"] for being unrecognized:
    ["banana"] becomes ["BANANA"]. The finding carries that severity. *)
Theorem tfsec_severity_spec (unicode_upper : char -> str) (d : list (str * json)) :
  Scan.tfsec_severity unicode_upper (JDict d) =
    match lookup (lit "severity") d with
    | None => Ok UNKNOWN
    | Some (JStr s) => Ok (upper unicode_upper s)
    | Some _ => Raise AttributeError
    end /\
  Scan.tfsec_severity unicode_upper (JDict [(lit "severity", JStr (lit "banana"))])
    = Ok (lit "BANANA") /\
  (forall f, Scan.tfsec_finding unicode_upper (JDict d) = Ok f ->
             exists sev, Scan.tfsec_severity unicode_upper (JDict d) = Ok sev /\
                         dict_get (lit "severity") JNull f = Ok (JStr sev)).
Proof.
  repeat split.
  - unfold Scan.tfsec_severity, dict_get, rbind.
    destruct (lookup (lit "severity") d) as [[]|]; reflexivity.
  - intros f H. unfold Scan.tfsec_finding in H.
    destruct (Scan.tfsec_severity unicode_upper (JDict d)) as [sev|e] eqn:E.
    + exists sev. split; [reflexivity|].
      unfold rbind in H.
      destruct (dict_get (lit "rule_id") JNull (JDict d)); [|discriminate].
      destruct (dict_get (lit "description") JNull (JDict d)); [|discriminate].
      destruct (dict_get (lit "location") (JDict []) (JDict d)) as [loc|]; [|discriminate].
      destruct (dict_get (lit "filename") JNull loc); [|discriminate].
      destruct (dict_get (lit "start_line") JNull loc); [|discriminate].
      injection H as <-. reflexivity.
    + unfold rbind in H.
      destruct (dict_get (lit "rule_id") JNull (JDict d)); [|discriminate].
      destruct (dict_get (lit "description") JNull (JDict d)); discriminate.
Qed.

(** ** The gate: counting *)

Lemma categorize_severity_names (v : json) (sev : str) :
  Gate.categorize_severity v = Ok sev -> In sev severity_names.
Proof.
  unfold Gate.categorize_severity, rbind, severity_names.
  destruct (any_in _ v) as [[]|]; [intros [= <-]; simpl; auto | | discriminate].
  destruct (py_in (lit "CKV_GCP") v) as [[]|]; [intros [= <-]; simpl; auto | | discriminate].
  destruct (py_in (lit "CKV_AWS") v) as [[]|]; [intros [= <-]; simpl; auto | | discriminate].
  destruct (py_in (lit "CKV2") v) as [[]|]; [| | discriminate];
    intros [= <-]; simpl; auto.
Qed.

(** The dict [severity_counts] keeps its four keys, in order. *)
Lemma counts_shape (counts : list (str * Z)) :
  map fst counts = severity_names ->
  exists c h m l, counts = [(CRITICAL, c); (HIGH, h); (MEDIUM, m); (LOW, l)].
Proof.
  unfold severity_names.
  destruct counts as [|[k1 c] [|[k2 h] [|[k3 m] [|[k4 l] [|]]]]]; try discriminate.
  simpl. intros [= -> -> -> ->]. now exists c, h, m, l.
Qed.

Lemma increment_keeps_keys (sev : str) (counts : list (str * Z)) :
  In sev severity_names ->
  map fst counts = severity_names ->
  exists counts', Gate.increment sev counts = Ok counts' /\
                  map fst counts' = severity_names.
Proof.
  intros Hin Hk. destruct (counts_shape counts Hk) as [c [h [m [l ->]]]].
  unfold severity_names in Hin. simpl in Hin.
  destruct Hin as [<- | [<- | [<- | [<- | []]]]];
    eexists; split; reflexivity.
Qed.

Lemma counting_loop_keeps_keys (checks : list json) (counts counts' : list (str * Z)) :
  map fst counts = severity_names ->
  for_each
    (fun severity_counts check =>
       check_id <- dict_get (lit "check_id") (JStr []) check ;;
       severity <- Gate.categorize_severity check_id ;;
       Gate.increment severity severity_counts)%result
    checks counts = Ok counts' ->
  map fst counts' = severity_names.
Proof.
  revert counts. induction checks as [|check checks IH]; intros counts Hk; simpl.
  - intros [= <-]. exact Hk.
  - destruct (dict_get (lit "check_id") (JStr []) check) as [cid|]; [|discriminate].
    cbn [rbind].
    destruct (Gate.categorize_severity cid) as [sev|] eqn:Es; [|discriminate].
    cbn [rbind].
    apply categorize_severity_names in Es.
    destruct (increment_keeps_keys sev counts Es Hk) as [c1 [-> Hk1]].
    cbn [rbind]. apply IH. exact Hk1.
Qed.

Lemma count_severities_keys (failed_checks : json) (counts : list (str * Z)) :
  Gate.count_severities failed_checks = Ok counts ->
  map fst counts = severity_names.
Proof.
  unfold Gate.count_severities. unfold rbind at 1.
  destruct (iterate failed_checks) as [checks|]; [|discriminate].
  apply counting_loop_keeps_keys. reflexivity.
Qed.

(** ** The gate: what the counts are *)

Lemma counting_step (counts : list (str * Z)) (check : json) :
  (check_id <- dict_get (lit "check_id") (JStr []) check ;;
   severity <- Gate.categorize_severity check_id ;;
   Gate.increment severity counts)%result =
  (severity <- severity_of check ;; Gate.increment severity counts)%result.
Proof.
  unfold severity_of.
  destruct (dict_get (lit "check_id") (JStr []) check); reflexivity.
Qed.

Lemma tally_cons (sev : str) (check : json) (checks : list json) :
  tally sev (check :: checks) =
  match severity_of check with
  | Ok s => if str_eqb s sev then 1 else 0
  | Raise _ => 0
  end + tally sev checks.
Proof.
  unfold tally, len. cbn [filter].
  destruct (severity_of check) as [s|]; [|lia].
  destruct (str_eqb s sev); cbn [List.length]; lia.
Qed.

Lemma counting_loop_tally (checks : list json) :
  Forall (fun check => exists s, severity_of check = Ok s) checks ->
  forall c h m l,
    for_each
      (fun severity_counts check =>
         check_id <- dict_get (lit "check_id") (JStr []) check ;;
         severity <- Gate.categorize_severity check_id ;;
         Gate.increment severity severity_counts)%result
      checks [(CRITICAL, c); (HIGH, h); (MEDIUM, m); (LOW, l)] =
    Ok [(CRITICAL, c + tally CRITICAL checks);
        (HIGH, h + tally HIGH checks);
        (MEDIUM, m + tally MEDIUM checks);
        (LOW, l + tally LOW checks)].
Proof.
  induction 1 as [|check checks [s Hs] _ IH]; intros c h m l.
  - unfold tally, len. cbn [for_each filter List.length Z.of_nat].
    now rewrite !Z.add_0_r.
  - cbn [for_each]. rewrite counting_step, !tally_cons, Hs. cbn [rbind].
    assert (Hin : In s severity_names).
    { unfold severity_of, rbind in Hs.
      destruct (dict_get (lit "check_id") (JStr []) check); [|discriminate].
      now apply categorize_severity_names in Hs. }
    unfold severity_names in Hin.
    destruct Hin as [<- | [<- | [<- | [<- | []]]]];
      unfold Gate.increment, Gate.getitem;
      cbn [lookup dict_set rbind str_eqb];
      repeat match goal with
             | |- context [str_eqb ?a ?b] =>
                 let v := eval vm_compute in (str_eqb a b) in
                 change (str_eqb a b) with v; cbv iota
             end;
      cbn [lookup dict_set rbind];
      rewrite IH, !Z.add_assoc, !Z.add_0_r; reflexivity.
Qed.

(** On a list of records that all classify, the counts [evaluate] tallies
    are the numbers of records of each severity. *)
Lemma count_severities_tally (checks : list json) :
  Forall (fun check => exists s, severity_of check = Ok s) checks ->
  Gate.count_severities (JList checks) =
  Ok [(CRITICAL, tally CRITICAL checks);
      (HIGH, tally HIGH checks);
      (MEDIUM, tally MEDIUM checks);
      (LOW, tally LOW checks)].
Proof.
  intros H. unfold Gate.count_severities, iterate. cbn [rbind].
  unfold Gate.initial_counts. now rewrite counting_loop_tally.
Qed.

(** When the counting loop finishes, every record was classified. *)
Lemma counting_loop_classifies (checks : list json) :
  forall counts counts',
    for_each
      (fun severity_counts check =>
         check_id <- dict_get (lit "check_id") (JStr []) check ;;
         severity <- Gate.categorize_severity check_id ;;
         Gate.increment severity severity_counts)%result
      checks counts = Ok counts' ->
    Forall (fun check => exists s, severity_of check = Ok s) checks.
Proof.
  induction checks as [|check checks IH]; intros counts counts' H; [constructor|].
  cbn [for_each] in H. rewrite counting_step in H.
  destruct (severity_of check) as [s|] eqn:Es; [|discriminate].
  cbn [rbind] in H.
  destruct (Gate.increment s counts) as [counts1|]; [|discriminate].
  constructor; [now exists s | exact (IH _ _ H)].
Qed.

(** ** The gate: verdict *)

Lemma snd_io_bind {A B} (m : io A) (k : A -> io B) :
  snd (io_bind m k) =
  match snd m with
  | Ok a => snd (k a)
  | Raise e => Raise e
  end.
Proof.
  destruct m as [out [a|e]]; simpl; [|reflexivity].
  destruct (k a); reflexivity.
Qed.

Lemma io_bind_ext {A B} (m : io A) (k k' : A -> io B) :
  (forall a, k a = k' a) -> io_bind m k = io_bind m k'.
Proof.
  intros H. destruct m as [out [a|e]]; simpl; [|reflexivity].
  now rewrite H.
Qed.

Lemma io_bind_ret {A B} (a : A) (k : A -> io B) : io_bind (io_ret a) k = k a.
Proof. unfold io_bind, io_ret. destruct (k a); reflexivity. Qed.

Lemma check_thresholds_passed (self : Gate.SecurityGate) (critical high : Z) :
  fst (Gate.check_thresholds self critical high) = true <->
  critical <= Gate.max_critical self /\ high <= Gate.max_high self.
Proof.
  unfold Gate.check_thresholds.
  destruct (Z.gtb_spec critical (Gate.max_critical self));
    destruct (Z.gtb_spec high (Gate.max_high self)); simpl;
    split; try discriminate; try lia; auto.
Qed.

(** [reasons] is empty exactly when [passed]. *)
Lemma check_thresholds_reasons (self : Gate.SecurityGate) (critical high : Z) :
  fst (Gate.check_thresholds self critical high) = true <->
  snd (Gate.check_thresholds self critical high) = [].
Proof.
  unfold Gate.check_thresholds.
  destruct (critical >? Gate.max_critical self), (high >? Gate.max_high self);
    simpl; split; congruence.
Qed.

Lemma print_all_result (lines : list str) :
  snd (Gate.print_all lines) = Ok tt.
Proof.
  induction lines as [|line lines IH]; cbn [Gate.print_all]; [reflexivity|].
  rewrite snd_io_bind. exact IH.
Qed.

Lemma report_result (self : Gate.SecurityGate) (c h m l : Z) :
  snd (Gate.report self [(CRITICAL, c); (HIGH, h); (MEDIUM, m); (LOW, l)]) =
  Ok (fst (Gate.check_thresholds self c h)).
Proof.
  unfold Gate.report.
  change (Gate.getitem CRITICAL [(CRITICAL, c); (HIGH, h); (MEDIUM, m); (LOW, l)])
    with (Ok c).
  change (Gate.getitem HIGH [(CRITICAL, c); (HIGH, h); (MEDIUM, m); (LOW, l)])
    with (Ok h).
  change (Gate.getitem MEDIUM [(CRITICAL, c); (HIGH, h); (MEDIUM, m); (LOW, l)])
    with (Ok m).
  change (Gate.getitem LOW [(CRITICAL, c); (HIGH, h); (MEDIUM, m); (LOW, l)])
    with (Ok l).
  repeat (rewrite snd_io_bind; cbn [snd lift print]).
  destruct (Gate.check_thresholds self c h) as [[] reasons];
    repeat (rewrite snd_io_bind; cbn [snd lift print fst]).
  - reflexivity.
  - rewrite print_all_result. reflexivity.
Qed.

(** [evaluate] on a file that holds a non-empty document. *)
Lemma evaluate_loaded (self : Gate.SecurityGate) (data results failed_checks : json) :
  truthy data = true ->
  dict_get (lit "results") (JDict []) data = Ok results ->
  dict_get (lit "failed_checks") (JList []) results = Ok failed_checks ->
  Gate.evaluate self (Contents data) =
  (print (str_mul (lit "=") 60) ;;
   print (lit "Security Gate Evaluation") ;;
   print (str_mul (lit "=") 60) ;;
   severity_counts <- lift (Gate.count_severities failed_checks) ;;
   Gate.report self severity_counts)%io.
Proof.
  intros Ht Hr Hf. unfold Gate.evaluate, Gate.load_checkov_results.
  do 3 (apply io_bind_ext; intros _).
  rewrite io_bind_ret, Ht. cbn [negb].
  rewrite Hr. change (lift (Ok results)) with (io_ret results).
  rewrite io_bind_ret, Hf.
  change (lift (Ok failed_checks)) with (io_ret failed_checks).
  rewrite io_bind_ret. reflexivity.
Qed.

(** C1. On a results file that holds a non-empty document whose failed
    checks are counted, [evaluate] returns [True] exactly when the critical
    count is at most [max_critical] and the high count is at most
    [max_high]; counts equal to their thresholds pass. The two counts are
    the numbers of failed checks classified CRITICAL and HIGH. *)
Theorem evaluate_passes_iff
    (self : Gate.SecurityGate) (data results failed_checks : json)
    (severity_counts : list (str * Z)) :
  truthy data = true ->
  dict_get (lit "results") (JDict []) data = Ok results ->
  dict_get (lit "failed_checks") (JList []) results = Ok failed_checks ->
  Gate.count_severities failed_checks = Ok severity_counts ->
  exists critical_count high_count passed,
    Gate.getitem CRITICAL severity_counts = Ok critical_count /\
    Gate.getitem HIGH severity_counts = Ok high_count /\
    snd (Gate.evaluate self (Contents data)) = Ok passed /\
    (passed = true <->
     critical_count <= Gate.max_critical self /\ high_count <= Gate.max_high self) /\
    (critical_count = Gate.max_critical self ->
     high_count = Gate.max_high self -> passed = true) /\
    (forall checks, failed_checks = JList checks ->
                    critical_count = tally CRITICAL checks /\
                    high_count = tally HIGH checks).
Proof.
  intros Ht Hr Hf Hc.
  destruct (counts_shape _ (count_severities_keys _ _ Hc)) as [c [h [m [l ->]]]].
  exists c, h, (fst (Gate.check_thresholds self c h)).
  split; [reflexivity|]. split; [reflexivity|].
  split; [|split; [|split]].
  - rewrite (evaluate_loaded self data results failed_checks Ht Hr Hf).
    repeat (rewrite snd_io_bind; cbn [snd print]).
    rewrite Hc. cbn [snd lift]. apply report_result.
  - apply check_thresholds_passed.
  - intros -> ->. apply check_thresholds_passed. lia.
  - intros checks ->.
    assert (Hall : Forall (fun check => exists s, severity_of check = Ok s) checks).
    { unfold Gate.count_severities, iterate in Hc. cbn [rbind] in Hc.
      exact (counting_loop_classifies _ _ _ Hc). }
    rewrite (count_severities_tally checks Hall) in Hc.
    injection Hc as <- <- _ _. split; reflexivity.
Qed.

Lemma evaluate_passes_iff_witness :
  exists critical_count high_count passed,
    Gate.getitem CRITICAL [(CRITICAL, 0); (HIGH, 5); (MEDIUM, 1); (LOW, 0)]
      = Ok critical_count /\
    Gate.getitem HIGH [(CRITICAL, 0); (HIGH, 5); (MEDIUM, 1); (LOW, 0)]
      = Ok high_count /\
    snd (Gate.evaluate default_gate
           (Contents (document (repeat (record "CKV_AWS_18" "S3 access logging" "/s3.tf") 5
                                ++ [record "CKV2_AWS_6" "S3 public access block" "/s3.tf"]))))
      = Ok passed /\
    (passed = true <-> critical_count <= 0 /\ high_count <= 5) /\
    (critical_count = 0 -> high_count = 5 -> passed = true) /\
    (forall checks,
        JList (repeat (record "CKV_AWS_18" "S3 access logging" "/s3.tf") 5
               ++ [record "CKV2_AWS_6" "S3 public access block" "/s3.tf"])
        = JList checks ->
        critical_count = tally CRITICAL checks /\
        high_count = tally HIGH checks).
Proof.
  exact (evaluate_passes_iff default_gate
           (document (repeat (record "CKV_AWS_18" "S3 access logging" "/s3.tf") 5
                      ++ [record "CKV2_AWS_6" "S3 public access block" "/s3.tf"]))
           _ _ _ eq_refl eq_refl eq_refl eq_refl).
Defined.

(** ** The gate: no data *)

Lemma evaluate_absent (self : Gate.SecurityGate) :
  Gate.evaluate self Absent =
  ([str_mul (lit "=") 60;
    lit "Security Gate Evaluation";
    str_mul (lit "=") 60;
    [10060%N] ++ lit " Checkov results not found: " ++
      path_join (Gate.results_dir self) (lit "results_json.json");
    Gate.no_results_message],
   Ok false).
Proof. reflexivity. Qed.

Lemma print_bind {B} (line : str) (k : unit -> io B) :
  io_bind (print line) k = (line :: fst (k tt), snd (k tt)).
Proof. unfold io_bind, print. destruct (k tt); reflexivity. Qed.

(** What [report] prints and returns when both counts are within their
    thresholds. *)
Lemma report_passed (self : Gate.SecurityGate) (c h m l : Z) :
  fst (Gate.check_thresholds self c h) = true ->
  Gate.report self [(CRITICAL, c); (HIGH, h); (MEDIUM, m); (LOW, l)] =
  ([[10%N] ++ lit "Findings Summary:";
    lit "  " ++ [128308%N] ++ lit " Critical: " ++ str_of_int c;
    lit "  " ++ [128992%N] ++ lit " High:     " ++ str_of_int h;
    lit "  " ++ [128993%N] ++ lit " Medium:   " ++ str_of_int m;
    lit "  " ++ [9898%N] ++ lit " Low:      " ++ str_of_int l;
    [10%N] ++ lit "Security Gate Policy:";
    lit "  Maximum Critical: " ++ str_of_int (Gate.max_critical self);
    lit "  Maximum High:     " ++ str_of_int (Gate.max_high self);
    [10%N] ++ str_mul (lit "=") 60;
    [9989%N] ++ lit " Security Gate: PASSED";
    str_mul (lit "=") 60;
    [10%N] ++ lit "The code meets security requirements."],
   Ok true).
Proof.
  intros H. unfold Gate.report.
  change (Gate.getitem CRITICAL [(CRITICAL, c); (HIGH, h); (MEDIUM, m); (LOW, l)])
    with (Ok c).
  change (Gate.getitem HIGH [(CRITICAL, c); (HIGH, h); (MEDIUM, m); (LOW, l)])
    with (Ok h).
  change (Gate.getitem MEDIUM [(CRITICAL, c); (HIGH, h); (MEDIUM, m); (LOW, l)])
    with (Ok m).
  change (Gate.getitem LOW [(CRITICAL, c); (HIGH, h); (MEDIUM, m); (LOW, l)])
    with (Ok l).
  cbv beta iota delta [io_bind lift print io_ret].
  destruct (Gate.check_thresholds self c h) as [[] reasons];
    [reflexivity | discriminate].
Qed.

(** The output of [evaluate] on a document without failed checks, under
    thresholds that are not negative. *)
Lemma evaluate_no_findings (self : Gate.SecurityGate) (data results : json) :
  0 <= Gate.max_critical self ->
  0 <= Gate.max_high self ->
  truthy data = true ->
  dict_get (lit "results") (JDict []) data = Ok results ->
  dict_get (lit "failed_checks") (JList []) results = Ok (JList []) ->
  Gate.evaluate self (Contents data) =
  ([str_mul (lit "=") 60;
    lit "Security Gate Evaluation";
    str_mul (lit "=") 60;
    [10%N] ++ lit "Findings Summary:";
    lit "  " ++ [128308%N] ++ lit " Critical: 0";
    lit "  " ++ [128992%N] ++ lit " High:     0";
    lit "  " ++ [128993%N] ++ lit " Medium:   0";
    lit "  " ++ [9898%N] ++ lit " Low:      0";
    [10%N] ++ lit "Security Gate Policy:";
    lit "  Maximum Critical: " ++ str_of_int (Gate.max_critical self);
    lit "  Maximum High:     " ++ str_of_int (Gate.max_high self);
    [10%N] ++ str_mul (lit "=") 60;
    [9989%N] ++ lit " Security Gate: PASSED";
    str_mul (lit "=") 60;
    [10%N] ++ lit "The code meets security requirements."],
   Ok true).
Proof.
  intros Hc Hh Ht Hr Hf.
  rewrite (evaluate_loaded self data results (JList []) Ht Hr Hf).
  change (lift (Gate.count_severities (JList [])))
    with (@io_ret (list (str * Z)) Gate.initial_counts).
  repeat (rewrite print_bind; cbv beta).
  rewrite io_bind_ret. unfold Gate.initial_counts.
  rewrite report_passed; [reflexivity|].
  apply check_thresholds_passed. lia.
Qed.

(** C2. With the results file absent, [evaluate] returns [False] and prints
    the warning that no scan results were found; the warning is neither of
    the two threshold reasons, and no reason is printed. A document with no
    failed checks passes instead (under thresholds that are not negative),
    and the warning is not printed for it. *)
Theorem evaluate_fails_closed (self : Gate.SecurityGate) :
  0 <= Gate.max_critical self ->
  0 <= Gate.max_high self ->
  snd (Gate.evaluate self Absent) = Ok false /\
  In Gate.no_results_message (fst (Gate.evaluate self Absent)) /\
  (forall count max,
      Gate.no_results_message <> Gate.critical_reason count max /\
      Gate.no_results_message <> Gate.high_reason count max /\
      ~ In (lit "  - " ++ Gate.critical_reason count max)
           (fst (Gate.evaluate self Absent)) /\
      ~ In (lit "  - " ++ Gate.high_reason count max)
           (fst (Gate.evaluate self Absent))) /\
  (forall data results,
      truthy data = true ->
      dict_get (lit "results") (JDict []) data = Ok results ->
      dict_get (lit "failed_checks") (JList []) results = Ok (JList []) ->
      snd (Gate.evaluate self (Contents data)) = Ok true /\
      ~ In Gate.no_results_message (fst (Gate.evaluate self (Contents data)))).
Proof.
  intros Hc Hh. rewrite evaluate_absent. cbn [fst snd].
  split; [reflexivity|]. split; [simpl; tauto|]. split.
  - intros count max. repeat split; try discriminate.
    + intros H. simpl in H. decompose [or] H; try discriminate; assumption.
    + intros H. simpl in H. decompose [or] H; try discriminate; assumption.
  - intros data results Ht Hr Hf.
    rewrite (evaluate_no_findings self data results Hc Hh Ht Hr Hf).
    cbn [fst snd]. split; [reflexivity|].
    intros H. simpl in H. decompose [or] H; try discriminate; assumption.
Qed.

Lemma evaluate_fails_closed_witness :
  snd (Gate.evaluate default_gate Absent) = Ok false /\
  snd (Gate.evaluate default_gate (Contents (document []))) = Ok true.
Proof.
  destruct (evaluate_fails_closed default_gate) as [Hfail [_ [_ Hpass]]].
  - simpl. lia.
  - simpl. lia.
  - split; [exact Hfail|].
    apply (Hpass (document []) (JDict [(lit "passed_checks", JList []);
                                       (lit "failed_checks", JList [])]));
      reflexivity.
Defined.

(** ** The gate: only the check ids matter *)

Lemma counting_loop_same_ids (checks1 checks2 : list json) :
  Forall2 same_check_id checks1 checks2 ->
  forall counts,
    for_each
      (fun severity_counts check =>
         check_id <- dict_get (lit "check_id") (JStr []) check ;;
         severity <- Gate.categorize_severity check_id ;;
         Gate.increment severity severity_counts)%result
      checks1 counts =
    for_each
      (fun severity_counts check =>
         check_id <- dict_get (lit "check_id") (JStr []) check ;;
         severity <- Gate.categorize_severity check_id ;;
         Gate.increment severity severity_counts)%result
      checks2 counts.
Proof.
  induction 1 as [|x y l1 l2 Hxy _ IH]; intros counts; [reflexivity|].
  cbn [for_each]. unfold same_check_id in Hxy. rewrite Hxy.
  destruct (rbind (dict_get (lit "check_id") (JStr []) y) _) as [counts'|];
    cbn [rbind]; [apply IH | reflexivity].
Qed.

Lemma report_same_thresholds (self1 self2 : Gate.SecurityGate)
    (counts : list (str * Z)) :
  Gate.max_critical self1 = Gate.max_critical self2 ->
  Gate.max_high self1 = Gate.max_high self2 ->
  Gate.report self1 counts = Gate.report self2 counts.
Proof.
  destruct self1 as [d1 c1 h1], self2 as [d2 c2 h2]. cbn [Gate.max_critical Gate.max_high].
  intros -> ->. reflexivity.
Qed.

(** C10. Two documents whose failed-check lists agree, record by record,
    on what [check.get('check_id', '')] returns get the same severity
    counts and the same run of [evaluate] (output and verdict) from gates
    with the same thresholds, whatever their other fields hold. *)
Theorem verdict_depends_on_check_ids
    (self1 self2 : Gate.SecurityGate)
    (data1 data2 results1 results2 : json) (checks1 checks2 : list json) :
  Gate.max_critical self1 = Gate.max_critical self2 ->
  Gate.max_high self1 = Gate.max_high self2 ->
  truthy data1 = true ->
  truthy data2 = true ->
  dict_get (lit "results") (JDict []) data1 = Ok results1 ->
  dict_get (lit "results") (JDict []) data2 = Ok results2 ->
  dict_get (lit "failed_checks") (JList []) results1 = Ok (JList checks1) ->
  dict_get (lit "failed_checks") (JList []) results2 = Ok (JList checks2) ->
  Forall2 same_check_id checks1 checks2 ->
  List.length checks1 = List.length checks2 /\
  Gate.count_severities (JList checks1) = Gate.count_severities (JList checks2) /\
  Gate.evaluate self1 (Contents data1) = Gate.evaluate self2 (Contents data2).
Proof.
  intros Hc Hh Ht1 Ht2 Hr1 Hr2 Hf1 Hf2 Hsame.
  assert (E : Gate.count_severities (JList checks1) =
              Gate.count_severities (JList checks2)).
  { unfold Gate.count_severities, iterate. cbn [rbind].
    now apply counting_loop_same_ids. }
  split; [exact (Forall2_length Hsame)|]. split; [exact E|].
  rewrite (evaluate_loaded self1 data1 results1 (JList checks1) Ht1 Hr1 Hf1).
  rewrite (evaluate_loaded self2 data2 results2 (JList checks2) Ht2 Hr2 Hf2).
  rewrite E.
  do 4 (apply io_bind_ext; intros ?).
  now apply report_same_thresholds.
Qed.

Lemma verdict_depends_on_check_ids_witness :
  Gate.evaluate default_gate
    (Contents (document [record "CKV_GCP_62" "Bucket logs access" "/gcs.tf";
                         record "CKV_AWS_18" "S3 access logging" "/s3.tf"]))
  = Gate.evaluate default_gate
      (Contents (document [record "CKV_GCP_62" "renamed" "/modules/a/main.tf";
                           JDict [(lit "resource", JStr (lit "aws_s3_bucket.b"));
                                  (lit "check_id", JStr (lit "CKV_AWS_18"))]])).
Proof.
  apply (verdict_depends_on_check_ids default_gate default_gate
           (document [record "CKV_GCP_62" "Bucket logs access" "/gcs.tf";
                      record "CKV_AWS_18" "S3 access logging" "/s3.tf"])
           (document [record "CKV_GCP_62" "renamed" "/modules/a/main.tf";
                      JDict [(lit "resource", JStr (lit "aws_s3_bucket.b"));
                             (lit "check_id", JStr (lit "CKV_AWS_18"))]])
           _ _ _ _
           eq_refl eq_refl eq_refl eq_refl eq_refl eq_refl eq_refl eq_refl).
  repeat constructor.
Defined.

(** ** The report's buckets *)

(** [categorize_by_severity] files a finding under the severity that the
    classification gives its [check_id], with that severity written into
    the finding. *)
Lemma categorize_by_severity_single (d : list (str * json)) (sev : str) :
  (check_id <- dict_get (lit "check_id") (JStr []) (JDict d) ;;
   Comment.classify check_id)%result = Ok sev ->
  exists severity_map,
    Comment.categorize_by_severity (JList [JDict d]) = Ok severity_map /\
    lookup sev severity_map =
    Some [JDict (dict_set (lit "severity") (JStr sev) d)].
Proof.
  intros H. unfold Comment.categorize_by_severity, iterate.
  cbn [rbind for_each]. cbn [dict_get rbind] in H |- *.
  rewrite H. cbn [rbind Comment.setitem].
  apply categorize_severity_names in H. unfold severity_names in H.
  destruct H as [<- | [<- | [<- | [<- | []]]]];
    eexists; split; reflexivity.
Qed.

(** ** The scenarios of the specification *)

Example one_critical_fails :
  Gate.evaluate default_gate
    (Contents (document [record "CKV_GCP_62" "Bucket logs access" "/gcs.tf"]))
  = ([str_mul (lit "=") 60;
      lit "Security Gate Evaluation";
      str_mul (lit "=") 60;
      [10%N] ++ lit "Findings Summary:";
      lit "  " ++ [128308%N] ++ lit " Critical: 1";
      lit "  " ++ [128992%N] ++ lit " High:     0";
      lit "  " ++ [128993%N] ++ lit " Medium:   0";
      lit "  " ++ [9898%N] ++ lit " Low:      0";
      [10%N] ++ lit "Security Gate Policy:";
      lit "  Maximum Critical: 0";
      lit "  Maximum High:     5";
      [10%N] ++ str_mul (lit "=") 60;
      [10060%N] ++ lit " Security Gate: FAILED";
      str_mul (lit "=") 60;
      [10%N] ++ lit "Reasons for failure:";
      lit "  - Critical issues: 1 (max allowed: 0)";
      [10%N] ++ lit "Please fix the security issues before merging."],
     Ok false).
Proof. reflexivity. Qed.

Example six_high_fail_under_five :
  snd (Gate.evaluate default_gate
         (Contents (document (repeat (record "CKV_AWS_18" "S3 access logging" "/s3.tf") 6))))
  = Ok false.
Proof. reflexivity. Qed.

Example six_high_pass_under_six :
  snd (Gate.evaluate
         {| Gate.results_dir := lit "scan-results";
            Gate.max_critical := 0;
            Gate.max_high := 6 |}
         (Contents (document (repeat (record "CKV_AWS_18" "S3 access logging" "/s3.tf") 6))))
  = Ok true.
Proof. reflexivity. Qed.

(** An empty document counts as no data. *)
Example empty_document_fails :
  snd (Gate.evaluate default_gate (Contents (JDict []))) = Ok false.
Proof. reflexivity. Qed.

(** Below three, the bound of [truncate_text] does not hold. *)
Example truncate_text_below_three :
  Comment.truncate_text (lit "abcd") 2 = lit "abc...".
Proof. reflexivity. Qed.

(** * Further properties of the three scripts *)

(** ** The gate: when it returns, and what it prints *)

Lemma plain_record_classifies (check : json) :
  plain_record check -> exists s, severity_of check = Ok s.
Proof.
  intros [d [-> [H | [s H]]]]; unfold severity_of, dict_get; rewrite H; cbn [rbind].
  - eexists. reflexivity.
  - rewrite gate_on_str. eexists. reflexivity.
Qed.

Lemma for_each_app {S A} (body : S -> A -> result S) (l1 l2 : list A) (s : S) :
  for_each body (l1 ++ l2) s =
  (s' <- for_each body l1 s ;; for_each body l2 s')%result.
Proof.
  revert s. induction l1 as [|a l1 IH]; intros s; cbn [for_each app rbind]; [reflexivity|].
  destruct (body s a); cbn [rbind]; [apply IH | reflexivity].
Qed.

Lemma print_all_eq (lines : list str) : Gate.print_all lines = (lines, Ok tt).
Proof.
  induction lines as [|line lines IH]; cbn [Gate.print_all]; [reflexivity|].
  rewrite print_bind, IH. reflexivity.
Qed.

(** All that [report] prints and returns. *)
Lemma report_eq (self : Gate.SecurityGate) (c h m l : Z) :
  Gate.report self [(CRITICAL, c); (HIGH, h); (MEDIUM, m); (LOW, l)] =
  (summary_lines self c h m l ++ verdict_lines (Gate.check_thresholds self c h),
   Ok (fst (Gate.check_thresholds self c h))).
Proof.
  unfold Gate.report.
  change (Gate.getitem CRITICAL [(CRITICAL, c); (HIGH, h); (MEDIUM, m); (LOW, l)])
    with (Ok c).
  change (Gate.getitem HIGH [(CRITICAL, c); (HIGH, h); (MEDIUM, m); (LOW, l)])
    with (Ok h).
  change (Gate.getitem MEDIUM [(CRITICAL, c); (HIGH, h); (MEDIUM, m); (LOW, l)])
    with (Ok m).
  change (Gate.getitem LOW [(CRITICAL, c); (HIGH, h); (MEDIUM, m); (LOW, l)])
    with (Ok l).
  destruct (Gate.check_thresholds self c h) as [[] reasons] eqn:E.
  - cbv beta iota delta [io_bind lift print io_ret]. rewrite E. reflexivity.
  - cbv beta iota delta [io_bind lift print io_ret]. rewrite E.
    rewrite print_all_eq. reflexivity.
Qed.

(** All that [evaluate] prints and returns once the counts are tallied. *)
Lemma evaluate_counted (self : Gate.SecurityGate) (data results failed_checks : json)
    (c h m l : Z) :
  truthy data = true ->
  dict_get (lit "results") (JDict []) data = Ok results ->
  dict_get (lit "failed_checks") (JList []) results = Ok failed_checks ->
  Gate.count_severities failed_checks =
    Ok [(CRITICAL, c); (HIGH, h); (MEDIUM, m); (LOW, l)] ->
  Gate.evaluate self (Contents data) =
  (header_lines ++ summary_lines self c h m l
     ++ verdict_lines (Gate.check_thresholds self c h),
   Ok (fst (Gate.check_thresholds self c h))).
Proof.
  intros Ht Hr Hf Hc.
  rewrite (evaluate_loaded self data results failed_checks Ht Hr Hf), Hc.
  repeat (rewrite print_bind; cbv beta).
  change (lift (Ok [(CRITICAL, c); (HIGH, h); (MEDIUM, m); (LOW, l)]))
    with (io_ret [(CRITICAL, c); (HIGH, h); (MEDIUM, m); (LOW, l)]).
  rewrite io_bind_ret, report_eq. reflexivity.
Qed.

(** [evaluate] when the counting loop raises: the header, then the
    exception. *)
Lemma evaluate_count_raises (self : Gate.SecurityGate) (data results failed_checks : json)
    (e : exn) :
  truthy data = true ->
  dict_get (lit "results") (JDict []) data = Ok results ->
  dict_get (lit "failed_checks") (JList []) results = Ok failed_checks ->
  Gate.count_severities failed_checks = Raise e ->
  Gate.evaluate self (Contents data) = (header_lines, Raise e).
Proof.
  intros Ht Hr Hf Hc.
  rewrite (evaluate_loaded self data results failed_checks Ht Hr Hf), Hc.
  reflexivity.
Qed.

Lemma evaluate_unreadable (self : Gate.SecurityGate) (e : exn) :
  Gate.evaluate self (Unreadable e) = (header_lines, Raise e).
Proof. reflexivity. Qed.

(** A document that is empty, or any other falsy value, counts as no
    data. *)
Lemma evaluate_falsy (self : Gate.SecurityGate) (data : json) :
  truthy data = false ->
  Gate.evaluate self (Contents data) =
  (header_lines ++ [Gate.no_results_message], Ok false).
Proof.
  intros Ht. unfold Gate.evaluate, Gate.load_checkov_results.
  repeat (rewrite print_bind; cbv beta).
  rewrite io_bind_ret, Ht. reflexivity.
Qed.

Lemma evaluate_get_raises (self : Gate.SecurityGate) (data : json) (e : exn) :
  truthy data = true ->
  (results <- dict_get (lit "results") (JDict []) data ;;
   dict_get (lit "failed_checks") (JList []) results)%result = Raise e ->
  Gate.evaluate self (Contents data) = (header_lines, Raise e).
Proof.
  intros Ht Hg. unfold Gate.evaluate, Gate.load_checkov_results.
  repeat (rewrite print_bind; cbv beta).
  rewrite io_bind_ret, Ht. cbn [negb].
  destruct (dict_get (lit "results") (JDict []) data) as [results|e'];
    cbn [rbind] in Hg.
  - change (lift (Ok results)) with (io_ret results). rewrite io_bind_ret, Hg.
    reflexivity.
  - injection Hg as ->. reflexivity.
Qed.

(** What the file held when [evaluate] returned [True]. *)
Lemma evaluate_true_inv (self : Gate.SecurityGate) (file : file_state) :
  snd (Gate.evaluate self file) = Ok true ->
  exists data results failed_checks c h m l,
    file = Contents data /\
    truthy data = true /\
    dict_get (lit "results") (JDict []) data = Ok results /\
    dict_get (lit "failed_checks") (JList []) results = Ok failed_checks /\
    Gate.count_severities failed_checks =
      Ok [(CRITICAL, c); (HIGH, h); (MEDIUM, m); (LOW, l)] /\
    c <= Gate.max_critical self /\ h <= Gate.max_high self.
Proof.
  destruct file as [|e|data].
  - rewrite evaluate_absent. discriminate.
  - rewrite evaluate_unreadable. discriminate.
  - destruct (truthy data) eqn:Ht; [|rewrite evaluate_falsy by exact Ht; discriminate].
    destruct (dict_get (lit "results") (JDict []) data) as [results|e] eqn:Hr.
    2:{ rewrite (evaluate_get_raises self data e Ht); [discriminate|].
        rewrite Hr. reflexivity. }
    destruct (dict_get (lit "failed_checks") (JList []) results) as [fc|e] eqn:Hf.
    2:{ rewrite (evaluate_get_raises self data e Ht); [discriminate|].
        rewrite Hr. exact Hf. }
    destruct (Gate.count_severities fc) as [counts|e] eqn:Hc.
    2:{ rewrite (evaluate_count_raises self data results fc e Ht Hr Hf Hc).
        discriminate. }
    destruct (counts_shape _ (count_severities_keys _ _ Hc)) as [c [h [m [l ->]]]].
    rewrite (evaluate_counted self data results fc c h m l Ht Hr Hf Hc).
    cbn [snd]. intros [= H]. apply check_thresholds_passed in H.
    exists data, results, fc, c, h, m, l. tauto.
Qed.

(** X1. On a non-empty document whose failed checks are dicts with a
    [check_id] that is a string or missing, [evaluate] returns a verdict: it
    does not raise. *)
Theorem evaluate_returns_on_plain_records
    (self : Gate.SecurityGate) (data results : json) (checks : list json) :
  truthy data = true ->
  dict_get (lit "results") (JDict []) data = Ok results ->
  dict_get (lit "failed_checks") (JList []) results = Ok (JList checks) ->
  Forall plain_record checks ->
  snd (Gate.evaluate self (Contents data)) =
  Ok ((tally CRITICAL checks <=? Gate.max_critical self) &&
      (tally HIGH checks <=? Gate.max_high self)).
Proof.
  intros Ht Hr Hf Hall.
  assert (Hcl : Forall (fun check => exists s, severity_of check = Ok s) checks).
  { eapply Forall_impl; [|exact Hall]. exact plain_record_classifies. }
  rewrite (evaluate_counted self data results (JList checks) _ _ _ _ Ht Hr Hf
             (count_severities_tally checks Hcl)).
  cbn [snd]. f_equal.
  destruct (fst (Gate.check_thresholds self (tally CRITICAL checks) (tally HIGH checks)))
    eqn:E.
  - apply check_thresholds_passed in E. symmetry. apply andb_true_iff.
    split; apply Z.leb_le; tauto.
  - symmetry. apply not_true_iff_false. intros H. apply andb_true_iff in H.
    destruct H as [H1 H2]. apply Z.leb_le in H1, H2.
    assert (E' : fst (Gate.check_thresholds self (tally CRITICAL checks) (tally HIGH checks)) = true)
      by (apply check_thresholds_passed; tauto).
    congruence.
Qed.

Lemma evaluate_returns_on_plain_records_witness :
  snd (Gate.evaluate default_gate
         (Contents (document [record "CKV_AWS_18" "S3 access logging" "/s3.tf";
                              JDict [(lit "check_name", JStr (lit "no id"))]])))
  = Ok true.
Proof.
  apply (evaluate_returns_on_plain_records default_gate
           (document [record "CKV_AWS_18" "S3 access logging" "/s3.tf";
                      JDict [(lit "check_name", JStr (lit "no id"))]])
           (JDict [(lit "passed_checks", JList []);
                   (lit "failed_checks",
                    JList [record "CKV_AWS_18" "S3 access logging" "/s3.tf";
                           JDict [(lit "check_name", JStr (lit "no id"))]])])
           _ eq_refl eq_refl eq_refl).
  repeat constructor.
  - eexists. split; [reflexivity|]. right. eexists. reflexivity.
  - eexists. split; [reflexivity|]. left. reflexivity.
Defined.

(** X2. One record that cannot be classified aborts the gate: when the
    records before it classify and it raises [e] (a record that is no dict,
    a [check_id] that is null or a number), [evaluate] raises [e] after the
    header, prints no verdict, and the process exits with status 1. *)
Theorem evaluate_aborts_on_bad_record
    (self : Gate.SecurityGate) (data results : json)
    (good : list json) (bad : json) (rest : list json) (e : exn) :
  truthy data = true ->
  dict_get (lit "results") (JDict []) data = Ok results ->
  dict_get (lit "failed_checks") (JList []) results = Ok (JList (good ++ bad :: rest)) ->
  Forall (fun check => exists s, severity_of check = Ok s) good ->
  severity_of bad = Raise e ->
  Gate.evaluate self (Contents data) = (header_lines, Raise e) /\
  Gate.main self (Contents data) = (header_lines, 1).
Proof.
  intros Ht Hr Hf Hgood Hbad.
  assert (E : Gate.evaluate self (Contents data) = (header_lines, Raise e)).
  { apply (evaluate_count_raises self data results _ e Ht Hr Hf).
    unfold Gate.count_severities, iterate. cbn [rbind].
    rewrite for_each_app. unfold Gate.initial_counts.
    rewrite (counting_loop_tally good Hgood). cbn [rbind for_each].
    rewrite counting_step, Hbad. reflexivity. }
  split; [exact E|]. unfold Gate.main. rewrite E. reflexivity.
Qed.

Lemma evaluate_aborts_on_bad_record_witness :
  Gate.main default_gate
    (Contents (document [record "CKV_AWS_18" "S3 access logging" "/s3.tf";
                         JDict [(lit "check_id", JNull)];
                         record "CKV_GCP_62" "Bucket logs access" "/gcs.tf"]))
  = (header_lines, 1).
Proof.
  apply (evaluate_aborts_on_bad_record default_gate
           (document [record "CKV_AWS_18" "S3 access logging" "/s3.tf";
                      JDict [(lit "check_id", JNull)];
                      record "CKV_GCP_62" "Bucket logs access" "/gcs.tf"])
           (JDict [(lit "passed_checks", JList []);
                   (lit "failed_checks",
                    JList [record "CKV_AWS_18" "S3 access logging" "/s3.tf";
                           JDict [(lit "check_id", JNull)];
                           record "CKV_GCP_62" "Bucket logs access" "/gcs.tf"])])
           [record "CKV_AWS_18" "S3 access logging" "/s3.tf"]
           (JDict [(lit "check_id", JNull)])
           [record "CKV_GCP_62" "Bucket logs access" "/gcs.tf"]
           TypeError eq_refl eq_refl eq_refl).
  - repeat constructor. eexists. reflexivity.
  - reflexivity.
Defined.

(** ** The gate: the counts and the thresholds *)

Lemma tally_nonneg (sev : str) (checks : list json) : 0 <= tally sev checks.
Proof. unfold tally, len. lia. Qed.

Lemma tally_total (checks : list json) :
  Forall (fun check => exists s, severity_of check = Ok s) checks ->
  tally CRITICAL checks + tally HIGH checks + tally MEDIUM checks + tally LOW checks
  = len checks.
Proof.
  induction 1 as [|check checks [s Hs] _ IH].
  - reflexivity.
  - rewrite !tally_cons, Hs.
    assert (Hin : In s severity_names).
    { unfold severity_of, rbind in Hs.
      destruct (dict_get (lit "check_id") (JStr []) check); [|discriminate].
      now apply categorize_severity_names in Hs. }
    assert (Hlen : len (check :: checks) = 1 + len checks).
    { unfold len. cbn [List.length]. lia. }
    rewrite Hlen, <- IH. unfold severity_names in Hin.
    destruct Hin as [<- | [<- | [<- | [<- | []]]]];
      repeat match goal with
             | |- context [str_eqb ?a ?b] =>
                 let v := eval vm_compute in (str_eqb a b) in
                 change (str_eqb a b) with v; cbv iota
             end; lia.
Qed.

(** X3. When the counting loop of [evaluate] finishes, its four counts are
    not negative and add up to the number of failed checks: every check is
    counted once. *)
Theorem counts_add_up (checks : list json) (severity_counts : list (str * Z)) :
  Gate.count_severities (JList checks) = Ok severity_counts ->
  exists c h m l,
    severity_counts = [(CRITICAL, c); (HIGH, h); (MEDIUM, m); (LOW, l)] /\
    0 <= c /\ 0 <= h /\ 0 <= m /\ 0 <= l /\
    c + h + m + l = len checks.
Proof.
  intros Hc.
  assert (Hall : Forall (fun check => exists s, severity_of check = Ok s) checks).
  { unfold Gate.count_severities, iterate in Hc. cbn [rbind] in Hc.
    exact (counting_loop_classifies _ _ _ Hc). }
  rewrite (count_severities_tally checks Hall) in Hc. injection Hc as <-.
  exists (tally CRITICAL checks), (tally HIGH checks),
         (tally MEDIUM checks), (tally LOW checks).
  split; [reflexivity|].
  repeat split; try apply tally_nonneg. exact (tally_total checks Hall).
Qed.

Lemma counts_add_up_witness :
  exists c h m l,
    [(CRITICAL, 1); (HIGH, 1); (MEDIUM, 0); (LOW, 1)]
    = [(CRITICAL, c); (HIGH, h); (MEDIUM, m); (LOW, l)] /\
    0 <= c /\ 0 <= h /\ 0 <= m /\ 0 <= l /\
    c + h + m + l =
    len [record "CKV_GCP_62" "Bucket logs access" "/gcs.tf";
         record "CKV_AWS_18" "S3 access logging" "/s3.tf";
         record "CKV_K8S_21" "Default namespace" "/k8s.tf"].
Proof.
  exact (counts_add_up
           [record "CKV_GCP_62" "Bucket logs access" "/gcs.tf";
            record "CKV_AWS_18" "S3 access logging" "/s3.tf";
            record "CKV_K8S_21" "Default namespace" "/k8s.tf"]
           _ eq_refl).
Defined.

(** X4. Loosening the thresholds never turns a pass into a failure: a file
    that passes the gate passes every gate whose two thresholds are at
    least as large. *)
Theorem thresholds_monotone (self self' : Gate.SecurityGate) (file : file_state) :
  Gate.max_critical self <= Gate.max_critical self' ->
  Gate.max_high self <= Gate.max_high self' ->
  snd (Gate.evaluate self file) = Ok true ->
  snd (Gate.evaluate self' file) = Ok true.
Proof.
  intros Hc Hh H.
  destruct (evaluate_true_inv self file H)
    as (data & results & fc & c & h & m & l & -> & Ht & Hr & Hf & Hcount & Hc' & Hh').
  rewrite (evaluate_counted self' data results fc c h m l Ht Hr Hf Hcount).
  cbn [snd]. f_equal. apply check_thresholds_passed. lia.
Qed.

Lemma thresholds_monotone_witness :
  snd (Gate.evaluate
         {| Gate.results_dir := lit "out"; Gate.max_critical := 1; Gate.max_high := 7 |}
         (Contents (document (repeat (record "CKV_AWS_18" "S3 access logging" "/s3.tf") 5))))
  = Ok true.
Proof.
  apply (thresholds_monotone default_gate).
  - simpl. lia.
  - simpl. lia.
  - reflexivity.
Defined.


(** X6. Once the counts are tallied, [evaluate] prints the reason for the
    critical threshold, with the exact count and maximum, exactly when the
    critical count exceeds [max_critical], and likewise the reason for the
    high threshold; it prints the PASSED banner exactly when neither
    does. *)
Theorem reasons_are_printed
    (self : Gate.SecurityGate) (data results failed_checks : json) (c h m l : Z) :
  truthy data = true ->
  dict_get (lit "results") (JDict []) data = Ok results ->
  dict_get (lit "failed_checks") (JList []) results = Ok failed_checks ->
  Gate.count_severities failed_checks =
    Ok [(CRITICAL, c); (HIGH, h); (MEDIUM, m); (LOW, l)] ->
  (In (lit "  - " ++ Gate.critical_reason c (Gate.max_critical self))
      (fst (Gate.evaluate self (Contents data)))
   <-> c > Gate.max_critical self) /\
  (In (lit "  - " ++ Gate.high_reason h (Gate.max_high self))
      (fst (Gate.evaluate self (Contents data)))
   <-> h > Gate.max_high self) /\
  (In ([9989%N] ++ lit " Security Gate: PASSED")
      (fst (Gate.evaluate self (Contents data)))
   <-> c <= Gate.max_critical self /\ h <= Gate.max_high self).
Proof.
  intros Ht Hr Hf Hc.
  rewrite (evaluate_counted self data results failed_checks c h m l Ht Hr Hf Hc).
  cbn [fst]. unfold Gate.check_thresholds.
  destruct (Z.gtb_spec c (Gate.max_critical self)) as [Hgc | Hgc];
    destruct (Z.gtb_spec h (Gate.max_high self)) as [Hgh | Hgh];
    (split; [|split]); (split; intros H); try lia;
    try (exfalso; simpl in H; decompose [or] H; try discriminate; try lia; assumption);
    simpl; tauto.
Qed.

Lemma reasons_are_printed_witness :
  In (lit "  - " ++ Gate.critical_reason 1 0)
     (fst (Gate.evaluate default_gate
             (Contents (document [record "CKV_GCP_62" "Bucket logs access" "/gcs.tf"]))))
  <-> 1 > 0.
Proof.
  apply (reasons_are_printed default_gate
           (document [record "CKV_GCP_62" "Bucket logs access" "/gcs.tf"])
           (JDict [(lit "passed_checks", JList []);
                   (lit "failed_checks",
                    JList [record "CKV_GCP_62" "Bucket logs access" "/gcs.tf"])])
           (JList [record "CKV_GCP_62" "Bucket logs access" "/gcs.tf"])
           1 0 0 0 eq_refl eq_refl eq_refl eq_refl).
Defined.

(** ** scan.py: the checkov run *)

Lemma scan_severity_names (v : json) (sev : str) :
  Scan._map_checkov_severity v = Ok sev -> In sev [CRITICAL; HIGH; MEDIUM].
Proof.
  unfold Scan._map_checkov_severity, rbind.
  destruct (any_in Scan.critical_patterns v) as [[]|];
    [intros [= <-]; simpl; auto | | discriminate].
  destruct (any_in Scan.high_patterns v) as [[]|]; [| | discriminate];
    intros [= <-]; simpl; auto.
Qed.

Lemma checkov_finding_has_shape (check_type f : json) :
  Scan.checkov_finding check_type = Ok f -> checkov_finding_shape f.
Proof.
  unfold Scan.checkov_finding, rbind.
  destruct (dict_get (lit "check_id") JNull check_type) as [check_id|]; [|discriminate].
  destruct (dict_get (lit "check_name") JNull check_type) as [check_name|]; [|discriminate].
  destruct (dict_get (lit "file_path") JNull check_type) as [file|]; [|discriminate].
  destruct (dict_get (lit "resource") JNull check_type) as [resource|]; [|discriminate].
  destruct (Scan._map_checkov_severity check_id) as [sev|] eqn:Es; [|discriminate].
  destruct (dict_get (lit "guideline") (JStr []) check_type) as [guideline|]; [|discriminate].
  intros [= <-]. exists check_id, check_name, file, resource, sev, guideline.
  split; [reflexivity | exact (scan_severity_names _ _ Es)].
Qed.

(** The loop over the failed checks: the findings it appends are those of
    the first checks, in order; it stops at the first check that raises. *)
Lemma append_findings_spec (checks : list json) :
  forall acc fs err,
    Scan.append_findings checks acc = (fs, err) ->
    exists new,
      fs = acc ++ new /\
      Forall2 (fun c f => Scan.checkov_finding c = Ok f)
              (firstn (List.length new) checks) new /\
      match err with
      | None => List.length new = List.length checks
      | Some e => exists bad, nth_error checks (List.length new) = Some bad /\
                              Scan.checkov_finding bad = Raise e
      end.
Proof.
  induction checks as [|c checks IH]; intros acc fs err H; cbn [Scan.append_findings] in H.
  - injection H as <- <-. exists []. rewrite app_nil_r. repeat split. constructor.
  - destruct (Scan.checkov_finding c) as [f|e] eqn:Ef.
    + destruct (IH _ _ _ H) as (new & -> & Hnew & Herr).
      exists (f :: new). rewrite <- app_assoc. split; [reflexivity|].
      cbn [List.length firstn]. split; [constructor; assumption|].
      destruct err as [e|]; [|now rewrite Herr]. exact Herr.
    + injection H as <- <-. exists []. rewrite app_nil_r.
      split; [reflexivity|]. split; [constructor|].
      exists c. split; [reflexivity | exact Ef].
Qed.

(** X7. Every finding [run_checkov] stores has the six keys [check_id],
    [check_name], [file], [resource], [severity], [guideline], in this
    order, with a severity that is CRITICAL, HIGH or MEDIUM (never LOW);
    and there are never more findings than failed checks. *)
Theorem run_checkov_findings_shape (process : result file_state) :
  Forall checkov_finding_shape (Scan.findings (Scan.run_checkov_process process)) /\
  (forall output results failed checks,
      process = Ok (Contents output) ->
      dict_get (lit "results") (JDict []) output = Ok results ->
      dict_get (lit "failed_checks") (JList []) results = Ok failed ->
      iterate failed = Ok checks ->
      (List.length (Scan.findings (Scan.run_checkov_process process))
       <= List.length checks)%nat).
Proof.
  assert (Hloop : forall checks fs err,
             Scan.append_findings checks [] = (fs, err) ->
             Forall checkov_finding_shape fs /\
             (List.length fs <= List.length checks)%nat).
  { intros checks fs err H.
    destruct (append_findings_spec checks [] fs err H) as (new & -> & Hnew & _).
    cbn [app]. split.
    - clear H. remember (firstn (List.length new) checks) as pre. clear Heqpre.
      induction Hnew; constructor; eauto using checkov_finding_has_shape.
    - apply Forall2_length in Hnew. rewrite <- Hnew, length_firstn. lia. }
  split.
  - destruct process as [[|e|output]|e]; cbn; try constructor.
    destruct (Scan.read_summary output); [|constructor].
    destruct (rbind _ _) as [checks|]; [|constructor].
    destruct (Scan.append_findings checks []) as [fs [e|]] eqn:E; cbn;
      exact (proj1 (Hloop _ _ _ E)).
  - intros output results failed checks -> Hr Hf Hi.
    cbn [Scan.run_checkov_process Scan.run_checkov].
    destruct (Scan.read_summary output); [|cbn; lia].
    rewrite Hr. cbn [rbind]. rewrite Hf. cbn [rbind]. rewrite Hi.
    destruct (Scan.append_findings checks []) as [fs [e|]] eqn:E; cbn;
      exact (proj2 (Hloop _ _ _ E)).
Qed.

Lemma append_findings_all (checks : list json) :
  forall findings acc,
    Forall2 (fun c f => Scan.checkov_finding c = Ok f) checks findings ->
    Scan.append_findings checks acc = (acc ++ findings, None).
Proof.
  induction checks as [|c checks IH]; intros findings acc H; inversion H; subst;
    cbn [Scan.append_findings].
  - now rewrite app_nil_r.
  - match goal with E : Scan.checkov_finding c = Ok _ |- _ => rewrite E end.
    rewrite (IH _ _ ltac:(eassumption)), <- app_assoc. reflexivity.
Qed.


(** ** scan.py and the gate *)

(** On a string, scan.py answers CRITICAL where the gate does, and HIGH
    only where the gate does. *)
Lemma scan_severity_below_gate (s : str) :
  exists sv gv,
    Scan._map_checkov_severity (JStr s) = Ok sv /\
    Gate.categorize_severity (JStr s) = Ok gv /\
    str_eqb sv CRITICAL = str_eqb gv CRITICAL /\
    (str_eqb sv HIGH = true -> str_eqb gv HIGH = true).
Proof.
  pose proof (gcp_underscore_has_gcp s) as Hg.
  pose proof (aws_underscore_has_aws s) as Ha.
  rewrite gate_on_str, scan_on_str, critical_patterns_same_set.
  rewrite <- !str_in_spec in *.
  destruct (existsb (fun p => str_in p s) critical_set);
    destruct (str_in (lit "CKV_GCP_") s);
    destruct (str_in (lit "CKV_AWS_") s);
    destruct (str_in (lit "CKV_GCP") s);
    destruct (str_in (lit "CKV_AWS") s);
    destruct (str_in (lit "CKV2") s);
    cbn [orb];
    try (specialize (Hg eq_refl); discriminate);
    try (specialize (Ha eq_refl); discriminate);
    eexists; eexists; (split; [reflexivity|]); (split; [reflexivity|]);
    split; try reflexivity; try (intros; reflexivity); try (intros H; discriminate H).
Qed.

Lemma count_severity_cons (sev : str) (f : json) (fs : list json) :
  Scan.count_severity sev (f :: fs) =
  (if match f with
      | JDict d => match lookup (lit "severity") d with
                   | Some (JStr s) => str_eqb s sev
                   | _ => false
                   end
      | _ => false
      end then 1 else 0) + Scan.count_severity sev fs.
Proof.
  unfold Scan.count_severity, len. cbn [filter].
  destruct (match f with JDict _ => _ | _ => false end); cbn [List.length]; lia.
Qed.

(** Records with string ids all become findings; scan.py counts as many
    CRITICAL findings as the gate, and no more HIGH findings. *)
Lemma scan_counts_below_gate (checks : list json) :
  Forall string_id_record checks ->
  exists findings,
    Forall2 (fun c f => Scan.checkov_finding c = Ok f) checks findings /\
    Scan.count_severity CRITICAL findings = tally CRITICAL checks /\
    Scan.count_severity HIGH findings <= tally HIGH checks.
Proof.
  induction 1 as [|check checks (d & s & -> & Hid) _ (findings & Hall & Hc & Hh)].
  - exists []. split; [constructor|]. split; [reflexivity | apply Z.le_refl].
  - destruct (checkov_finding_with_check_id d s Hid) as (sev & Hsev & _ & Hf).
    destruct (scan_severity_below_gate s) as (sv & gv & Hsv & Hgv & Ec & Eh).
    rewrite Hsev in Hsv. injection Hsv as <-.
    eexists (_ :: findings). split; [constructor; [exact Hf | exact Hall]|].
    rewrite !count_severity_cons, !tally_cons.
    assert (Hs : severity_of (JDict d) = Ok gv).
    { unfold severity_of, dict_get. rewrite Hid. exact Hgv. }
    rewrite Hs.
    change (lookup (lit "severity")
              [(lit "check_id", JStr s);
               (lit "check_name",
                match lookup (lit "check_name") d with Some x => x | None => JNull end);
               (lit "file",
                match lookup (lit "file_path") d with Some x => x | None => JNull end);
               (lit "resource",
                match lookup (lit "resource") d with Some x => x | None => JNull end);
               (lit "severity", JStr sev);
               (lit "guideline",
                match lookup (lit "guideline") d with Some x => x | None => JStr [] end)])
      with (Some (JStr sev)).
    cbv beta iota. rewrite Ec. split; [lia|].
    destruct (str_eqb sev HIGH); [rewrite (Eh eq_refl)|destruct (str_eqb gv HIGH)]; lia.
Qed.

(** X9. On a checkov document whose failed checks all carry a string
    [check_id] and whose summary can be read, a gate with
    [max_critical <= 0] and [max_high <= 5] (the defaults or stricter) that
    passes implies that scan.py's own checkov check passes: scan.py counts
    the same CRITICAL findings and no more HIGH findings than the gate. *)
Theorem gate_pass_implies_checkov_pass
    (self : Gate.SecurityGate) (output results : json) (summary : list (str * json))
    (checks : list json) :
  Gate.max_critical self <= 0 ->
  Gate.max_high self <= 5 ->
  Scan.read_summary output = Ok summary ->
  dict_get (lit "results") (JDict []) output = Ok results ->
  dict_get (lit "failed_checks") (JList []) results = Ok (JList checks) ->
  Forall string_id_record checks ->
  snd (Gate.evaluate self (Contents output)) = Ok true ->
  Scan.passed (Scan.run_checkov (Contents output)) = true.
Proof.
  intros Hmc Hmh Hs Hr Hf Hall Hpass.
  destruct (evaluate_true_inv self _ Hpass)
    as (data & results' & fc & c & h & m & l & [= <-] & Ht & Hr' & Hf' & Hcount & Hc & Hh).
  rewrite Hr in Hr'. injection Hr' as <-. rewrite Hf in Hf'. injection Hf' as <-.
  assert (Hcl : Forall (fun check => exists s, severity_of check = Ok s) checks).
  { unfold Gate.count_severities, iterate in Hcount. cbn [rbind] in Hcount.
    exact (counting_loop_classifies _ _ _ Hcount). }
  rewrite (count_severities_tally checks Hcl) in Hcount.
  injection Hcount as <- <- _ _.
  destruct (scan_counts_below_gate checks Hall) as (findings & Hnorm & Ec & Eh).
  pose proof (tally_nonneg CRITICAL checks).
  cbn [Scan.run_checkov]. rewrite Hs, Hr. cbn [rbind]. rewrite Hf. cbn [rbind iterate].
  rewrite (append_findings_all checks findings [] Hnorm). cbn [app Scan.passed].
  apply andb_true_iff. split; [apply Z.eqb_eq | apply Z.leb_le]; lia.
Qed.

Lemma gate_pass_implies_checkov_pass_witness :
  Scan.passed
    (Scan.run_checkov
       (Contents (document (repeat (record "CKV_AWS_18" "S3 access logging" "/s3.tf") 5))))
  = true.
Proof.
  apply (gate_pass_implies_checkov_pass default_gate
           (document (repeat (record "CKV_AWS_18" "S3 access logging" "/s3.tf") 5))
           (JDict [(lit "passed_checks", JList []);
                   (lit "failed_checks",
                    JList (repeat (record "CKV_AWS_18" "S3 access logging" "/s3.tf") 5))])
           [(lit "passed", JInt 0); (lit "failed", JInt 0);
            (lit "skipped", JInt 0); (lit "parsing_errors", JInt 0)]
           (repeat (record "CKV_AWS_18" "S3 access logging" "/s3.tf") 5)).
  - simpl. lia.
  - simpl. lia.
  - reflexivity.
  - reflexivity.
  - reflexivity.
  - repeat constructor; eexists; eexists; (split; reflexivity).
  - reflexivity.
Defined.

(** ** scan.py: the tfsec run *)

Lemma tfsec_severity_of_string (unicode_upper : char -> str)
    (d : list (str * json)) (s : str) :
  lookup (lit "severity") d = Some (JStr s) ->
  Scan.tfsec_severity unicode_upper (JDict d) = Ok (upper unicode_upper s).
Proof.
  intros H. unfold Scan.tfsec_severity, dict_get. rewrite H. reflexivity.
Qed.

(** X10. [run_tfsec] turns a record into a finding exactly when the record
    is a dict whose [severity] is missing or a string and whose [location]
    is missing or a dict; any other record raises (and ends the loop). *)
Theorem tfsec_finding_returns_iff (unicode_upper : char -> str) (finding : json) :
  (exists f, Scan.tfsec_finding unicode_upper finding = Ok f) <->
  exists d,
    finding = JDict d /\
    (lookup (lit "severity") d = None \/
     exists s, lookup (lit "severity") d = Some (JStr s)) /\
    (lookup (lit "location") d = None \/
     exists l, lookup (lit "location") d = Some (JDict l)).
Proof.
  split.
  - intros [f H]. destruct finding as [| | | | |l|d]; try discriminate H.
    exists d. split; [reflexivity|].
    unfold Scan.tfsec_finding, Scan.tfsec_severity, Scan.json_upper, dict_get, rbind in H.
    destruct (lookup (lit "severity") d) as [[| | | |s| |]|]; cbv beta iota in H;
      try discriminate H;
      (split; [eauto|]);
      destruct (lookup (lit "location") d) as [[| | | | | |loc]|]; cbv beta iota in H;
        try discriminate H; eauto.
  - intros (d & -> & Hs & Hl).
    unfold Scan.tfsec_finding, Scan.tfsec_severity, Scan.json_upper, dict_get, rbind.
    destruct Hs as [-> | [s ->]]; destruct Hl as [-> | [l ->]]; cbv beta iota;
      eexists; reflexivity.
Qed.

Lemma append_tfsec_spec (unicode_upper : char -> str) (raw : list json) :
  forall acc fs err,
    Scan.append_tfsec unicode_upper raw acc = (fs, err) ->
    exists new,
      fs = acc ++ new /\
      Forall2 (fun r f => Scan.tfsec_finding unicode_upper r = Ok f)
              (firstn (List.length new) raw) new /\
      match err with
      | None => List.length new = List.length raw
      | Some e => exists bad, nth_error raw (List.length new) = Some bad /\
                              Scan.tfsec_finding unicode_upper bad = Raise e
      end.
Proof.
  induction raw as [|r raw IH]; intros acc fs err H; cbn [Scan.append_tfsec] in H.
  - injection H as <- <-. exists []. rewrite app_nil_r. repeat split. constructor.
  - destruct (Scan.tfsec_finding unicode_upper r) as [f|e] eqn:Ef.
    + destruct (IH _ _ _ H) as (new & -> & Hnew & Herr).
      exists (f :: new). rewrite <- app_assoc. split; [reflexivity|].
      cbn [List.length firstn]. split; [constructor; assumption|].
      destruct err as [e|]; [|now rewrite Herr]. exact Herr.
    + injection H as <- <-. exists []. rewrite app_nil_r.
      split; [reflexivity|]. split; [constructor|].
      exists r. split; [reflexivity | exact Ef].
Qed.

Lemma Forall2_In_left {A B} (R : A -> B -> Prop) (l : list A) (l' : list B) (x : A) :
  Forall2 R l l' -> In x l -> exists y, In y l' /\ R x y.
Proof.
  induction 1 as [|a b l l' Hab _ IH]; intros Hin; [destruct Hin|].
  destruct Hin as [<- | Hin].
  - exists b. split; [left; reflexivity | exact Hab].
  - destruct (IH Hin) as [y [Hy Hxy]]. exists y. split; [right; exact Hy | exact Hxy].
Qed.

Lemma str_eqb_refl_true (a : str) : str_eqb a a = true.
Proof. apply str_eqb_eq. reflexivity. Qed.

Lemma count_severity_nonneg (sev : str) (findings : list json) :
  0 <= Scan.count_severity sev findings.
Proof. unfold Scan.count_severity, len. lia. Qed.

Lemma count_severity_positive (sev : str) (findings : list json) (d : list (str * json)) :
  In (JDict d) findings ->
  lookup (lit "severity") d = Some (JStr sev) ->
  0 < Scan.count_severity sev findings.
Proof.
  induction findings as [|f findings IH]; intros Hin Hsev; [destruct Hin|].
  rewrite count_severity_cons. pose proof (count_severity_nonneg sev findings).
  destruct Hin as [-> | Hin].
  - rewrite Hsev, str_eqb_refl_true. lia.
  - specialize (IH Hin Hsev).
    destruct (match f with JDict _ => _ | _ => false end); lia.
Qed.

(** X11. tfsec's severities are matched without regard to case: a result
    list that holds a record whose severity upper-cases to ["CRITICAL"]
    (["critical"], ["Critical"], ...) never passes [run_tfsec]. *)
Theorem tfsec_critical_fails (unicode_upper : char -> str)
    (tfsec_output results : json) (raw : list json)
    (d : list (str * json)) (s : str) :
  dict_get (lit "results") (JList []) tfsec_output = Ok results ->
  iterate results = Ok raw ->
  In (JDict d) raw ->
  lookup (lit "severity") d = Some (JStr s) ->
  upper unicode_upper s = CRITICAL ->
  fst (Scan.run_tfsec unicode_upper (Scan.Output tfsec_output)) = false.
Proof.
  intros Hr Hi Hin Hs Hup. cbn [Scan.run_tfsec]. rewrite Hr. cbn [rbind]. rewrite Hi.
  destruct (Scan.append_tfsec unicode_upper raw []) as [fs [e|]] eqn:E; [reflexivity|].
  destruct (append_tfsec_spec unicode_upper raw [] fs None E) as (new & -> & Hnew & Hlen).
  rewrite Hlen, firstn_all in Hnew. cbn [app fst].
  destruct (Forall2_In_left _ _ _ _ Hnew Hin) as (f & Hf & Hnorm).
  unfold Scan.tfsec_finding in Hnorm.
  rewrite (tfsec_severity_of_string unicode_upper d s Hs), Hup in Hnorm.
  unfold rbind, dict_get in Hnorm.
  destruct (match lookup (lit "location") d with Some x => x | None => JDict [] end)
    as [| | | | | |loc]; try discriminate Hnorm.
  injection Hnorm as <-.
  assert (Hpos : 0 < Scan.count_severity CRITICAL new).
  { eapply count_severity_positive; [exact Hf | reflexivity]. }
  apply andb_false_iff. left. apply Z.eqb_neq. lia.
Qed.

Lemma tfsec_critical_fails_witness :
  fst (Scan.run_tfsec (fun c => [c])
         (Scan.Output
            (JDict [(lit "results",
                     JList [JDict [(lit "rule_id", JStr (lit "google-storage-no-public-access"));
                                   (lit "severity", JStr (lit "critical"))]])])))
  = false.
Proof.
  apply (tfsec_critical_fails (fun c => [c])
           (JDict [(lit "results",
                    JList [JDict [(lit "rule_id", JStr (lit "google-storage-no-public-access"));
                                  (lit "severity", JStr (lit "critical"))]])])
           (JList [JDict [(lit "rule_id", JStr (lit "google-storage-no-public-access"));
                          (lit "severity", JStr (lit "critical"))]])
           [JDict [(lit "rule_id", JStr (lit "google-storage-no-public-access"));
                   (lit "severity", JStr (lit "critical"))]]
           [(lit "rule_id", JStr (lit "google-storage-no-public-access"));
            (lit "severity", JStr (lit "critical"))]
           (lit "critical")).
  - reflexivity.
  - reflexivity.
  - left. reflexivity.
  - reflexivity.
  - reflexivity.
Defined.



(** ** scan.py: the whole run *)



(** ** generate-pr-comment.py: the severity buckets *)

Lemma severity_of_dict (check : json) (s : str) :
  severity_of check = Ok s -> exists d, check = JDict d.
Proof.
  destruct check; try discriminate. intros _. eexists. reflexivity.
Qed.

Lemma bucket_cons (sev : str) (check : json) (checks : list json) :
  bucket sev (check :: checks) = marked sev check ++ bucket sev checks.
Proof. reflexivity. Qed.

Lemma categorize_step (severity_map : list (str * list json)) (d : list (str * json)) :
  (check_id <- dict_get (lit "check_id") (JStr []) (JDict d) ;;
   severity <- Comment.classify check_id ;;
   finding' <- Comment.setitem (lit "severity") (JStr severity) (JDict d) ;;
   Comment.append_to severity finding' severity_map)%result =
  (severity <- severity_of (JDict d) ;;
   Comment.append_to severity
     (JDict (dict_set (lit "severity") (JStr severity) d)) severity_map)%result.
Proof.
  unfold severity_of. cbn [dict_get rbind].
  change Comment.classify with Gate.categorize_severity.
  destruct (Gate.categorize_severity _); reflexivity.
Qed.

Lemma categorize_loop_buckets (checks : list json) :
  Forall (fun check => exists s, severity_of check = Ok s) checks ->
  forall lc lh lm ll,
    for_each
      (fun severity_map finding =>
         check_id <- dict_get (lit "check_id") (JStr []) finding ;;
         severity <- Comment.classify check_id ;;
         finding' <- Comment.setitem (lit "severity") (JStr severity) finding ;;
         Comment.append_to severity finding' severity_map)%result
      checks [(CRITICAL, lc); (HIGH, lh); (MEDIUM, lm); (LOW, ll)] =
    Ok [(CRITICAL, lc ++ bucket CRITICAL checks);
        (HIGH, lh ++ bucket HIGH checks);
        (MEDIUM, lm ++ bucket MEDIUM checks);
        (LOW, ll ++ bucket LOW checks)].
Proof.
  induction 1 as [|check checks [s Hs] _ IH]; intros lc lh lm ll.
  - cbn [for_each bucket flat_map]. now rewrite !app_nil_r.
  - destruct (severity_of_dict check s Hs) as [d ->].
    cbn [for_each]. rewrite categorize_step, !bucket_cons.
    unfold marked. rewrite Hs. cbn [rbind].
    assert (Hin : In s severity_names).
    { unfold severity_of, rbind in Hs.
      destruct (dict_get (lit "check_id") (JStr []) (JDict d)); [|discriminate].
      now apply categorize_severity_names in Hs. }
    unfold severity_names in Hin.
    destruct Hin as [<- | [<- | [<- | [<- | []]]]];
      unfold Comment.append_to;
      cbn [lookup dict_set rbind str_eqb];
      repeat match goal with
             | |- context [str_eqb ?a ?b] =>
                 let v := eval vm_compute in (str_eqb a b) in
                 change (str_eqb a b) with v; cbv iota
             end;
      cbn [lookup dict_set rbind];
      rewrite IH; cbn [app]; rewrite <- ?app_assoc; reflexivity.
Qed.

Lemma categorize_loop_classifies (checks : list json) :
  forall severity_map severity_map',
    for_each
      (fun severity_map finding =>
         check_id <- dict_get (lit "check_id") (JStr []) finding ;;
         severity <- Comment.classify check_id ;;
         finding' <- Comment.setitem (lit "severity") (JStr severity) finding ;;
         Comment.append_to severity finding' severity_map)%result
      checks severity_map = Ok severity_map' ->
    Forall (fun check => exists s, severity_of check = Ok s) checks.
Proof.
  induction checks as [|check checks IH]; intros sm sm' H; [constructor|].
  cbn [for_each] in H.
  destruct (dict_get (lit "check_id") (JStr []) check) as [cid|] eqn:Ed; [|discriminate].
  cbn [rbind] in H.
  change Comment.classify with Gate.categorize_severity in H.
  destruct (Gate.categorize_severity cid) as [s|] eqn:Es; [|discriminate].
  cbn [rbind] in H.
  destruct (rbind (Comment.setitem _ _ check) _) as [sm1|]; [|discriminate].
  cbn [rbind] in H.
  constructor; [|exact (IH _ _ H)].
  exists s. unfold severity_of. rewrite Ed. exact Es.
Qed.

Lemma bucket_size_is_tally (sev : str) (checks : list json) :
  Forall (fun check => exists s, severity_of check = Ok s) checks ->
  len (bucket sev checks) = tally sev checks.
Proof.
  induction 1 as [|check checks [s Hs] _ IH]; [reflexivity|].
  destruct (severity_of_dict check s Hs) as [d ->].
  rewrite bucket_cons, tally_cons. unfold marked. rewrite Hs.
  unfold len in *. rewrite length_app.
  destruct (str_eqb s sev); cbn [List.length]; lia.
Qed.

(** What [categorize_by_severity] returns, in full. *)
Lemma categorize_by_severity_inv (findings : json) (severity_map : list (str * list json)) :
  Comment.categorize_by_severity findings = Ok severity_map ->
  exists checks,
    iterate findings = Ok checks /\
    Forall (fun check => exists s, severity_of check = Ok s) checks /\
    severity_map = [(CRITICAL, bucket CRITICAL checks);
                    (HIGH, bucket HIGH checks);
                    (MEDIUM, bucket MEDIUM checks);
                    (LOW, bucket LOW checks)].
Proof.
  unfold Comment.categorize_by_severity.
  destruct (iterate findings) as [checks|]; cbn [rbind]; [|discriminate].
  intros H. exists checks. split; [reflexivity|].
  pose proof (categorize_loop_classifies _ _ _ H) as Hall. split; [exact Hall|].
  unfold Comment.initial_map in H.
  rewrite (categorize_loop_buckets checks Hall) in H. cbn [app] in H. congruence.
Qed.

(** X14. When [categorize_by_severity] returns, each of its four lists
    holds exactly the findings that classify under that severity, in their
    original order and each with its [severity] field set to it; the sizes
    of the lists are the counts the gate tallies for the same failed
    checks. *)
Theorem categorize_by_severity_buckets (checks : list json)
    (severity_map : list (str * list json)) :
  Comment.categorize_by_severity (JList checks) = Ok severity_map ->
  severity_map = [(CRITICAL, bucket CRITICAL checks);
                  (HIGH, bucket HIGH checks);
                  (MEDIUM, bucket MEDIUM checks);
                  (LOW, bucket LOW checks)] /\
  Gate.count_severities (JList checks) =
  Ok [(CRITICAL, len (bucket CRITICAL checks));
      (HIGH, len (bucket HIGH checks));
      (MEDIUM, len (bucket MEDIUM checks));
      (LOW, len (bucket LOW checks))].
Proof.
  intros H.
  destruct (categorize_by_severity_inv _ _ H) as (checks' & [= <-] & Hall & ->).
  split; [reflexivity|].
  rewrite !bucket_size_is_tally by exact Hall.
  exact (count_severities_tally checks Hall).
Qed.

Lemma categorize_by_severity_buckets_witness :
  [(CRITICAL, [JDict [(lit "check_id", JStr (lit "CKV_GCP_62"));
                      (lit "severity", JStr CRITICAL)]]);
   (HIGH, []);
   (MEDIUM, []);
   (LOW, [JDict [(lit "severity", JStr LOW)]])]
  = [(CRITICAL, bucket CRITICAL [JDict [(lit "check_id", JStr (lit "CKV_GCP_62"))];
                                 JDict [(lit "severity", JStr (lit "HIGH"))]]);
     (HIGH, bucket HIGH [JDict [(lit "check_id", JStr (lit "CKV_GCP_62"))];
                         JDict [(lit "severity", JStr (lit "HIGH"))]]);
     (MEDIUM, bucket MEDIUM [JDict [(lit "check_id", JStr (lit "CKV_GCP_62"))];
                             JDict [(lit "severity", JStr (lit "HIGH"))]]);
     (LOW, bucket LOW [JDict [(lit "check_id", JStr (lit "CKV_GCP_62"))];
                       JDict [(lit "severity", JStr (lit "HIGH"))]])].
Proof.
  apply (categorize_by_severity_buckets
           [JDict [(lit "check_id", JStr (lit "CKV_GCP_62"))];
            JDict [(lit "severity", JStr (lit "HIGH"))]]).
  reflexivity.
Defined.

(** ** generate-pr-comment.py: the status and the gate *)

Lemma overall_status_cases (c h : Z) :
  (snd (Comment.overall_status c h) = lit "ATTENTION - High severity issues found" \/
   snd (Comment.overall_status c h) = lit "PASSED - No critical/high issues")
  <-> c <= 0 /\ h <= 5.
Proof.
  unfold Comment.overall_status.
  destruct (Z.gtb_spec c 0) as [Hc|Hc]; [split; [intros [E|E]; discriminate E | lia]|].
  destruct (Z.gtb_spec h 5) as [Hh|Hh]; [split; [intros [E|E]; discriminate E | lia]|].
  destruct (Z.gtb_spec h 0) as [Hz|Hz]; (split; [lia|]); intros _; [left | right];
    reflexivity.
Qed.

(** X15. The status of the pull-request comment agrees with the gate at
    its default thresholds: when [generate_pr_comment] gets as far as its
    status line, a gate with [max_critical = 0] and [max_high = 5] passes
    the same results file exactly when the status is ATTENTION or PASSED,
    and fails it when the status is FAILED or WARNING or the data could not
    be loaded. *)
Theorem status_line_matches_gate
    (self : Gate.SecurityGate) (file : file_state) (line : str) :
  Gate.max_critical self = 0 ->
  Gate.max_high self = 5 ->
  Comment.status_line file = Ok line ->
  (snd (Gate.evaluate self file) = Ok true <->
   line = lit "**Status:** " ++ [128993%N] ++ lit " "
          ++ lit "ATTENTION - High severity issues found" \/
   line = lit "**Status:** " ++ [128994%N] ++ lit " "
          ++ lit "PASSED - No critical/high issues") /\
  (snd (Gate.evaluate self file) = Ok true \/
   snd (Gate.evaluate self file) = Ok false).
Proof.
  intros Hmc Hmh H.
  assert (Hno : forall data,
             Comment.load_checkov_results file = Ok data -> truthy data = false ->
             Gate.evaluate self file =
             (fst (Gate.evaluate self file), Ok false)).
  { intros data Hl Ht. destruct file as [|e|v]; cbn in Hl.
    - rewrite evaluate_absent. reflexivity.
    - discriminate.
    - injection Hl as ->. rewrite (evaluate_falsy self data Ht). reflexivity. }
  unfold Comment.status_line in H.
  destruct (Comment.load_checkov_results file) as [data|] eqn:Hl; [|discriminate].
  cbn [rbind] in H. destruct (truthy data) eqn:Ht; cbn [negb] in H.
  2:{ injection H as <-. rewrite (Hno data eq_refl Ht). cbn [snd].
      split; [|right; reflexivity].
      split; [discriminate | intros [E|E]; discriminate E]. }
  clear Hno.
  assert (Hfile : file = Contents data).
  { destruct file as [|e|v]; cbn in Hl; [|discriminate|congruence].
    injection Hl as <-. discriminate Ht. }
  subst file.
  destruct (dict_get (lit "summary") (JDict []) data) as [summary|]; [|discriminate].
  cbn [rbind] in H.
  destruct (dict_get (lit "results") (JDict []) data) as [results|] eqn:Hr; [|discriminate].
  cbn [rbind] in H.
  destruct (dict_get (lit "failed_checks") (JList []) results) as [fc|] eqn:Hf;
    [|discriminate].
  cbn [rbind] in H.
  destruct (dict_get (lit "passed_checks") (JList []) results); [|discriminate].
  cbn [rbind] in H.
  destruct (Comment.categorize_by_severity fc) as [sm|] eqn:Hcat; [|discriminate].
  cbn [rbind] in H.
  destruct (categorize_by_severity_inv fc sm Hcat) as (checks & Hi & Hall & ->).
  change (Comment.bucket_size CRITICAL _) with (Ok (len (bucket CRITICAL checks))) in H.
  change (Comment.bucket_size HIGH _) with (Ok (len (bucket HIGH checks))) in H.
  change (Comment.bucket_size MEDIUM _) with (Ok (len (bucket MEDIUM checks))) in H.
  change (Comment.bucket_size LOW _) with (Ok (len (bucket LOW checks))) in H.
  cbn [rbind] in H.
  destruct (dict_get (lit "failed") (JInt 0) summary); [|discriminate].
  cbn [rbind] in H.
  destruct (dict_get (lit "passed") (JInt 0) summary); [|discriminate].
  cbn [rbind] in H.
  rewrite !bucket_size_is_tally in H by exact Hall.
  assert (Hcount : Gate.count_severities fc =
                   Ok [(CRITICAL, tally CRITICAL checks); (HIGH, tally HIGH checks);
                       (MEDIUM, tally MEDIUM checks); (LOW, tally LOW checks)]).
  { unfold Gate.count_severities. rewrite Hi. cbn [rbind].
    unfold Gate.initial_counts. now rewrite counting_loop_tally. }
  rewrite (evaluate_counted self data results fc _ _ _ _ Ht Hr Hf Hcount).
  cbn [snd].
  split; [|destruct (fst _); auto].
  pose proof (overall_status_cases (tally CRITICAL checks) (tally HIGH checks)) as Hs.
  pose proof (check_thresholds_passed self (tally CRITICAL checks) (tally HIGH checks)) as Hp.
  rewrite Hmc, Hmh in Hp.
  unfold Comment.overall_status in H, Hs.
  destruct (tally CRITICAL checks >? 0);
    [|destruct (tally HIGH checks >? 5); [|destruct (tally HIGH checks >? 0)]];
    cbn [snd] in Hs; injection H as <-;
    (split; [intros [= E]; apply Hp in E; apply Hs in E;
             destruct E as [E|E]; try discriminate E; auto
            |intros E; f_equal; apply Hp; apply Hs;
             destruct E as [E|E]; try discriminate E; auto]).
Qed.

Lemma status_line_matches_gate_witness :
  snd (Gate.evaluate default_gate
         (Contents (document [record "CKV_AWS_18" "S3 access logging" "/s3.tf"])))
  = Ok true <->
  lit "**Status:** " ++ [128993%N] ++ lit " " ++ lit "ATTENTION - High severity issues found"
  = lit "**Status:** " ++ [128993%N] ++ lit " "
    ++ lit "ATTENTION - High severity issues found" \/
  lit "**Status:** " ++ [128993%N] ++ lit " " ++ lit "ATTENTION - High severity issues found"
  = lit "**Status:** " ++ [128994%N] ++ lit " "
    ++ lit "PASSED - No critical/high issues".
Proof.
  apply (status_line_matches_gate default_gate
           (Contents (document [record "CKV_AWS_18" "S3 access logging" "/s3.tf"]))
           (lit "**Status:** " ++ [128993%N] ++ lit " "
            ++ lit "ATTENTION - High severity issues found")).
  - reflexivity.
  - reflexivity.
  - reflexivity.
Defined.

(** ** generate-pr-comment.py: the most affected files *)

Lemma str_eqb_neq (a b : str) : str_eqb a b = false <-> a <> b.
Proof.
  rewrite <- str_eqb_eq. destruct (str_eqb a b); split; congruence.
Qed.

Lemma str_eqb_sym (a b : str) : str_eqb a b = str_eqb b a.
Proof.
  destruct (str_eqb a b) eqn:E.
  - apply str_eqb_eq in E. subst. symmetry. apply str_eqb_refl_true.
  - symmetry. apply str_eqb_neq. apply str_eqb_neq in E. congruence.
Qed.

(** Reading back what [d[k] = v] wrote, and what it left alone. *)
Lemma lookup_dict_set_same {V} (k : str) (v : V) (d : list (str * V)) :
  lookup k (dict_set k v d) = Some v.
Proof.
  induction d as [|[k' v'] d IH]; cbn [dict_set lookup].
  - now rewrite str_eqb_refl_true.
  - destruct (str_eqb k k') eqn:E; cbn [lookup].
    + now rewrite str_eqb_refl_true.
    + rewrite E. exact IH.
Qed.

Lemma lookup_dict_set_other {V} (k k' : str) (v : V) (d : list (str * V)) :
  k' <> k -> lookup k' (dict_set k v d) = lookup k' d.
Proof.
  intros Hne. apply str_eqb_neq in Hne.
  induction d as [|[k0 v0] d IH]; cbn [dict_set lookup].
  - now rewrite Hne.
  - destruct (str_eqb k k0) eqn:E; cbn [lookup].
    + apply str_eqb_eq in E. subst k0. now rewrite Hne.
    + destruct (str_eqb k' k0); [reflexivity | exact IH].
Qed.

Lemma lookup_none_not_in {V} (k : str) (d : list (str * V)) :
  lookup k d = None -> ~ In k (map fst d).
Proof.
  induction d as [|[k' v'] d IH]; cbn [lookup map fst]; [intros _ []|].
  destruct (str_eqb k k') eqn:E; [discriminate|].
  intros H [Hin | Hin].
  - apply str_eqb_neq in E. congruence.
  - exact (IH H Hin).
Qed.

Lemma keys_dict_set {V} (k : str) (v : V) (d : list (str * V)) :
  map fst (dict_set k v d) =
  match lookup k d with
  | Some _ => map fst d
  | None => map fst d ++ [k]
  end.
Proof.
  induction d as [|[k' v'] d IH]; cbn [dict_set lookup map fst app]; [reflexivity|].
  destruct (str_eqb k k') eqn:E; cbn [map fst].
  - apply str_eqb_eq in E. now subst.
  - rewrite IH. destruct (lookup k d); reflexivity.
Qed.

Lemma NoDup_snoc {A} (l : list A) (x : A) :
  NoDup l -> ~ In x l -> NoDup (l ++ [x]).
Proof.
  induction 1 as [|a l Ha _ IH]; intros Hx; cbn [app].
  - constructor; [intros [] | constructor].
  - constructor.
    + rewrite in_app_iff. intros [H | [H | []]]; [exact (Ha H)|].
      apply Hx. left. symmetry. exact H.
    + apply IH. intros H. apply Hx. right. exact H.
Qed.

Lemma path_occurrences_snoc (p : str) (checks : list json) (x : json) :
  path_occurrences p (checks ++ [x]) =
  path_occurrences p checks +
  match Comment.file_path_of x with
  | Ok q => if str_eqb q p then 1 else 0
  | Raise _ => 0
  end.
Proof.
  unfold path_occurrences, len. rewrite filter_app, length_app. cbn [filter].
  destruct (Comment.file_path_of x) as [q|]; [|cbn [List.length]; lia].
  destruct (str_eqb q p); cbn [List.length]; lia.
Qed.

Lemma path_occurrences_nonneg (p : str) (checks : list json) :
  0 <= path_occurrences p checks.
Proof. unfold path_occurrences, len. lia. Qed.

(** The loop that fills [file_counts], after any number of findings. *)
Lemma count_files_loop (checks : list json) :
  forall file_counts,
    for_each
      (fun file_counts finding =>
         file_path <- Comment.file_path_of finding ;;
         Ok (if negb (str_eqb file_path []) then Comment.bump file_path file_counts
             else file_counts))%result
      checks [] = Ok file_counts ->
    (forall p,
        lookup p file_counts =
        if negb (str_eqb p []) && (0 <? path_occurrences p checks)
        then Some (path_occurrences p checks) else None) /\
    NoDup (map fst file_counts).
Proof.
  induction checks as [|x checks IH] using rev_ind; intros counts H.
  - cbn [for_each] in H. injection H as <-. split; [|constructor].
    intros p. cbn [lookup]. unfold path_occurrences, len. cbn [filter List.length Z.of_nat].
    now rewrite andb_false_r.
  - rewrite for_each_app in H.
    destruct (for_each _ checks []) as [acc|]; [|discriminate].
    destruct (IH acc eq_refl) as [Hacc Hnd]. clear IH.
    cbn [rbind for_each] in H.
    destruct (Comment.file_path_of x) as [q|] eqn:Eq; [|discriminate].
    cbn [rbind] in H. injection H as <-.
    destruct (str_eqb q []) eqn:Eempty; cbn [negb].
    + apply str_eqb_eq in Eempty. subst q. split; [|exact Hnd].
      intros p. rewrite path_occurrences_snoc, Eq, Hacc.
      destruct (str_eqb p []) eqn:Ep; cbn [negb andb]; [reflexivity|].
      rewrite str_eqb_sym, Ep, Z.add_0_r. reflexivity.
    + unfold Comment.bump. split.
      * intros p. rewrite path_occurrences_snoc, Eq.
        pose proof (path_occurrences_nonneg p checks) as Hge.
        destruct (str_eqb q p) eqn:Eqp.
        -- apply str_eqb_eq in Eqp. subst p.
           rewrite lookup_dict_set_same, Hacc, Eempty. cbn [negb andb].
           destruct (Z.ltb_spec 0 (path_occurrences q checks));
             destruct (Z.ltb_spec 0 (path_occurrences q checks + 1)); try lia;
             f_equal; lia.
        -- apply str_eqb_neq in Eqp.
           rewrite lookup_dict_set_other by congruence.
           rewrite Hacc, Z.add_0_r. reflexivity.
      * rewrite keys_dict_set.
        destruct (lookup q acc) eqn:El; [exact Hnd|].
        apply NoDup_snoc; [exact Hnd | exact (lookup_none_not_in q acc El)].
Qed.

(** X16. When the loop that fills [file_counts] finishes, a path is a key
    exactly when it is not empty and is the stripped [file_path] of some
    failed check, its count is the number of failed checks with that path,
    and no path is listed twice. *)
Theorem count_files_spec (checks : list json) (file_counts : list (str * Z)) :
  Comment.count_files (JList checks) = Ok file_counts ->
  (forall p,
      lookup p file_counts =
      if negb (str_eqb p []) && (0 <? path_occurrences p checks)
      then Some (path_occurrences p checks) else None) /\
  NoDup (map fst file_counts).
Proof.
  unfold Comment.count_files, iterate. cbn [rbind]. apply count_files_loop.
Qed.

Lemma count_files_spec_witness :
  lookup (lit "s3.tf") [(lit "s3.tf", 2); (lit "gcs.tf", 1)] =
  Some (path_occurrences (lit "s3.tf")
          [record "CKV_AWS_18" "S3 access logging" "/s3.tf";
           record "CKV_GCP_62" "Bucket logs access" "//gcs.tf";
           JDict [(lit "check_id", JStr (lit "CKV_AWS_19"))];
           record "CKV_AWS_21" "S3 versioning" "s3.tf"]) /\
  NoDup (map fst [(lit "s3.tf", 2); (lit "gcs.tf", 1)]).
Proof.
  destruct (count_files_spec
              [record "CKV_AWS_18" "S3 access logging" "/s3.tf";
               record "CKV_GCP_62" "Bucket logs access" "//gcs.tf";
               JDict [(lit "check_id", JStr (lit "CKV_AWS_19"))];
               record "CKV_AWS_21" "S3 versioning" "s3.tf"]
              [(lit "s3.tf", 2); (lit "gcs.tf", 1)] eq_refl) as [H1 H2].
  split; [rewrite H1; reflexivity | exact H2].
Defined.

Lemma insert_item_perm (x : str * Z) (sorted : list (str * Z)) :
  Permutation (Comment.insert_item x sorted) (x :: sorted).
Proof.
  induction sorted as [|y rest IH]; cbn [Comment.insert_item]; [reflexivity|].
  destruct (snd y <? snd x); [reflexivity|].
  rewrite IH. apply perm_swap.
Qed.

Lemma insert_item_sorted (x : str * Z) (sorted : list (str * Z)) :
  StronglySorted (fun a b => snd b <= snd a) sorted ->
  StronglySorted (fun a b => snd b <= snd a) (Comment.insert_item x sorted).
Proof.
  induction 1 as [|y rest Hs IH Hy]; cbn [Comment.insert_item].
  - constructor; constructor.
  - destruct (Z.ltb_spec (snd y) (snd x)) as [Hlt | Hge].
    + constructor; [constructor; assumption|].
      constructor; [lia|].
      eapply Forall_impl; [|exact Hy]. cbv beta. intros a Ha. lia.
    + constructor; [exact IH|].
      apply Forall_forall. intros a Ha.
      apply (Permutation_in _ (insert_item_perm x rest)) in Ha.
      destruct Ha as [<- | Ha]; [exact Hge|].
      rewrite Forall_forall in Hy. exact (Hy a Ha).
Qed.

(** Inserting [x] puts it after the items of its own count. *)
Lemma insert_item_stable (x : str * Z) (sorted : list (str * Z)) (c : Z) :
  StronglySorted (fun a b => snd b <= snd a) sorted ->
  filter (fun y => snd y =? c) (Comment.insert_item x sorted) =
  filter (fun y => snd y =? c) sorted ++ (if snd x =? c then [x] else []).
Proof.
  induction 1 as [|y rest Hs IH Hy]; cbn [Comment.insert_item].
  - cbn [filter app]. destruct (snd x =? c); reflexivity.
  - destruct (Z.ltb_spec (snd y) (snd x)) as [Hlt | Hge].
    + cbn [filter].
      destruct (Z.eqb_spec (snd x) c) as [Hx | Hx]; [|now rewrite app_nil_r].
      destruct (Z.eqb_spec (snd y) c) as [Hyc | _]; [lia|].
      assert (E : filter (fun y0 => snd y0 =? c) rest = []).
      { clear IH Hs. induction rest as [|z rest IHr]; [reflexivity|].
        inversion Hy; subst. cbn [filter].
        destruct (Z.eqb_spec (snd z) (snd x)); [lia | auto]. }
      rewrite E. reflexivity.
    + cbn [filter]. rewrite IH.
      destruct (snd y =? c); reflexivity.
Qed.

Lemma sort_items_loop (items : list (str * Z)) :
  forall acc,
    StronglySorted (fun a b => snd b <= snd a) acc ->
    StronglySorted (fun a b => snd b <= snd a)
      (fold_left (fun sorted x => Comment.insert_item x sorted) items acc) /\
    Permutation (fold_left (fun sorted x => Comment.insert_item x sorted) items acc)
                (acc ++ items) /\
    forall c,
      filter (fun y => snd y =? c)
             (fold_left (fun sorted x => Comment.insert_item x sorted) items acc) =
      filter (fun y => snd y =? c) acc ++ filter (fun y => snd y =? c) items.
Proof.
  induction items as [|x items IH]; intros acc Hacc; cbn [fold_left].
  - rewrite app_nil_r. split; [exact Hacc|]. split; [reflexivity|].
    intros c. cbn [filter]. now rewrite app_nil_r.
  - destruct (IH _ (insert_item_sorted x acc Hacc)) as (Hs & Hp & Hf).
    split; [exact Hs|]. split.
    + rewrite Hp, insert_item_perm. apply Permutation_middle.
    + intros c. rewrite Hf, (insert_item_stable x acc c Hacc), <- app_assoc.
      cbn [filter]. destruct (snd x =? c); reflexivity.
Qed.

Lemma StronglySorted_app_inv {A} (R : A -> A -> Prop) (l1 l2 : list A) :
  StronglySorted R (l1 ++ l2) ->
  StronglySorted R l1 /\ forall a b, In a l1 -> In b l2 -> R a b.
Proof.
  induction l1 as [|x l1 IH]; cbn [app]; intros H.
  - split; [constructor | intros a b []].
  - inversion H as [|? ? Hs Hx]; subst. destruct (IH Hs) as [Hs1 Hab].
    rewrite Forall_forall in Hx. split.
    + constructor; [exact Hs1|]. apply Forall_forall. intros a Ha.
      apply Hx. apply in_or_app. left. exact Ha.
    + intros a b [<- | Ha] Hb; [|exact (Hab a b Ha Hb)].
      apply Hx. apply in_or_app. right. exact Hb.
Qed.

(** X17. The rows of the table of most affected files are at most five,
    in order of decreasing count; together with the files left out they are
    a rearrangement of [file_counts], and no file left out has a larger
    count than a file listed. The sort is stable: files of equal count stay
    in the order in which they were first seen. *)
Theorem sorted_files_spec (file_counts : list (str * Z)) :
  (List.length (Comment.sorted_files file_counts) <= 5)%nat /\
  StronglySorted (fun a b => snd b <= snd a) (Comment.sorted_files file_counts) /\
  (exists left_out,
      Permutation file_counts (Comment.sorted_files file_counts ++ left_out) /\
      forall row x, In row (Comment.sorted_files file_counts) -> In x left_out ->
                    snd x <= snd row) /\
  (forall c,
      filter (fun y => snd y =? c) (Comment.sort_items file_counts) =
      filter (fun y => snd y =? c) file_counts).
Proof.
  unfold Comment.sorted_files, Comment.sort_items.
  destruct (sort_items_loop file_counts [] (SSorted_nil _)) as (Hs & Hp & Hf).
  cbn [app] in Hp.
  set (sorted := fold_left (fun s x => Comment.insert_item x s) file_counts []) in *.
  rewrite <- (firstn_skipn 5 sorted) in Hs, Hp.
  destruct (StronglySorted_app_inv _ _ _ Hs) as [Hs1 Hab].
  split; [rewrite length_firstn; lia|].
  split; [exact Hs1|].
  split.
  - exists (skipn 5 sorted). split; [symmetry; exact Hp|].
    intros row x Hrow Hx. exact (Hab row x Hrow Hx).
  - intros c. rewrite Hf. reflexivity.
Qed.

(** ** generate-pr-comment.py: truncation and paths, at the edges *)

Lemma truncate_text_short (s : str) (n : Z) :
  len s <= n -> Comment.truncate_text s n = s.
Proof.
  intros H. unfold Comment.truncate_text.
  destruct (Z.leb_spec (len s) n); [reflexivity | lia].
Qed.

Lemma truncate_text_long (s : str) (n : Z) :
  n < len s ->
  Comment.truncate_text s n = slice_to s (n - 3) ++ lit "..." /\
  len (Comment.truncate_text s n) =
  (if n <? 3 then Z.max (len s + n - 3) 0 else n - 3) + 3.
Proof.
  intros H. unfold Comment.truncate_text.
  destruct (Z.leb_spec (len s) n) as [Hle | _]; [lia|].
  split; [reflexivity|].
  unfold slice_to, len in *. rewrite length_app.
  change (List.length (lit "...")) with 3%nat.
  destruct (Z.ltb_spec n 3) as [H3 | H3];
    destruct (Z.ltb_spec (n - 3) 0) as [Hneg | Hpos];
    rewrite length_firstn; lia.
Qed.

(** X18. [truncate_text] keeps its output within [max_length] exactly when
    the text already fits or [max_length] is at least 3: below 3, a text
    that does not fit comes back longer than [max_length] (its last
    [3 - max_length] characters replaced by ["..."]). For [max_length] of
    at least 3, truncating twice is truncating once. *)
Theorem truncate_text_bound (s : str) (n : Z) :
  (len (Comment.truncate_text s n) <= n <-> len s <= n \/ 3 <= n) /\
  (n < len s -> n < 3 ->
   Comment.truncate_text s n =
     firstn (Z.to_nat (len s + n - 3)) s ++ lit "..." /\
   len (Comment.truncate_text s n) = Z.max (len s + n - 3) 0 + 3) /\
  (3 <= n ->
   Comment.truncate_text (Comment.truncate_text s n) n = Comment.truncate_text s n).
Proof.
  assert (Hlen : 0 <= len s) by (unfold len; lia).
  split; [|split].
  - destruct (Z.le_gt_cases (len s) n) as [Hle | Hgt].
    + rewrite truncate_text_short by exact Hle. tauto.
    + destruct (truncate_text_long s n) as [_ E]; [lia|]. rewrite E.
      destruct (Z.ltb_spec n 3); lia.
  - intros Hgt H3. destruct (truncate_text_long s n Hgt) as [E1 E2].
    split.
    + rewrite E1. unfold slice_to.
      destruct (Z.ltb_spec (n - 3) 0); [|lia].
      now rewrite Z.add_sub_assoc.
    + rewrite E2. destruct (Z.ltb_spec n 3); [reflexivity | lia].
  - intros H3. apply truncate_text_short.
    destruct (Z.le_gt_cases (len s) n) as [Hle | Hgt].
    + now rewrite truncate_text_short.
    + destruct (truncate_text_long s n) as [_ E]; [lia|]. rewrite E.
      destruct (Z.ltb_spec n 3); lia.
Qed.

(** X19. Stripping a path removes a run of leading ['/'] characters and
    nothing else, and removes all of them: the result is the path without
    that run and does not start with ['/']; a path is left unchanged
    exactly when it does not start with ['/']. *)
Theorem strip_path_spec (file_path : str) :
  (exists slashes,
      file_path = slashes ++ Comment.strip_path file_path /\
      Forall (fun c => c = 47%N) slashes) /\
  (forall rest, Comment.strip_path file_path <> 47%N :: rest) /\
  (Comment.strip_path file_path = file_path <->
   forall rest, file_path <> 47%N :: rest).
Proof.
  unfold Comment.strip_path.
  assert (Hhead : forall rest, lstrip (lit "/") file_path <> 47%N :: rest).
  { intros rest H. apply lstrip_head in H. discriminate H. }
  split; [|split].
  - destruct (lstrip_suffix (lit "/") file_path) as (dropped & Hd & Hall).
    exists dropped. split; [exact Hd|].
    apply Forall_forall. intros c Hc.
    rewrite forallb_forall in Hall. specialize (Hall c Hc).
    cbn [existsb lit map list_ascii_of_string] in Hall.
    rewrite orb_false_r in Hall. unfold char_eqb in Hall.
    apply N.eqb_eq in Hall. exact Hall.
  - exact Hhead.
  - split.
    + intros E rest. rewrite <- E. apply Hhead.
    + intros H. destruct file_path as [|c rest]; [reflexivity|].
      change (lit "/") with [47%N]. cbn [lstrip existsb].
      rewrite orb_false_r. unfold char_eqb.
      destruct (N.eqb_spec c 47) as [-> | _]; [|reflexivity].
      destruct (H rest eq_refl).
Qed.
